(** * Ghost newsletter subscription: a shallow embedding

    The script under study subscribes an e-mail address to a Ghost
    newsletter in two network steps (integrity token, then magic link) and
    remembers in the browser's storage that the visitor subscribed or
    dismissed the form.

    The embedding follows the script function by function.  The browser is
    an explicit state ([World]): the two storage areas, the elements the
    script looks up by id, the pending [setTimeout] callbacks, the server
    and the log of requests sent to it.  An [async] function is a
    computation over that state which either completes normally or throws;
    [await] is sequencing.  Calls to [console.log] / [console.error] only
    write to the developer console and have no counterpart here. *)

From Stdlib Require Import ZArith QArith Ascii.
From stdpp Require Import base option list gmap strings.

Local Open Scope string_scope.
Local Open Scope list_scope.
Local Open Scope Z_scope.
Local Set Warnings "-register-all".

(** ** JavaScript values *)

(** What [response.json()] can resolve to, plus [undefined], which
    property access produces.  An object is the list of its own
    properties. *)
Inductive value : Type :=
  | VUndefined
  | VNull
  | VBool (b : bool)
  | VNum (q : Q)
  | VStr (s : string)
  | VArr (items : list value)
  | VObj (props : list (string * value)).

(** ToBoolean.  The operand of [||] is kept when it is truthy. *)
Definition truthy (v : value) : bool :=
  match v with
  | VUndefined | VNull => false
  | VBool b => b
  | VNum q => negb (Qeq_bool q 0)
  | VStr s => negb (String.eqb s "")
  | VArr _ | VObj _ => true
  end.

Definition nullish (v : value) : bool :=
  match v with
  | VUndefined | VNull => true
  | _ => false
  end.


(** [a || b] *)
Definition js_or (a b : value) : value := if truthy a then a else b.

(** Own property of an object. *)
Fixpoint own_property (k : string) (props : list (string * value)) : value :=
  match props with
  | [] => VUndefined
  | (k', v) :: rest => if String.eqb k k' then v else own_property k rest
  end.

(** What the script can throw or have thrown at it. *)
Inductive Exn : Type :=
  | TypeError                      (* property read on null / undefined *)
  | SecurityError                  (* storage refused by the host *)
  | FetchFailed                    (* fetch() rejected: no response *)
  | TokenStatusError (status : Z)  (* new Error(`Failed to fetch integrity token: ...`) *)
  | BodyError.                     (* reading or parsing a response body failed *)

Inductive Completion (A : Type) : Type :=
  | Normal (a : A)
  | Throw (e : Exn).
Arguments Normal {A} a.
Arguments Throw {A} e.

(** [v.k] for a property name [k] that is neither an index nor a built-in
    of the primitive wrappers (the script reads [errors] and [message]):
    reading from [null] or [undefined] throws, an object answers with its
    own property, every other value has no such property. *)
Definition member (k : string) (v : value) : Completion value :=
  match v with
  | VUndefined | VNull => Throw TypeError
  | VObj props => Normal (own_property k props)
  | _ => Normal VUndefined
  end.

(** [v[0]]: first element of an array, first character of a string,
    property "0" of an object. *)
Definition item0 (v : value) : Completion value :=
  match v with
  | VUndefined | VNull => Throw TypeError
  | VArr [] => Normal VUndefined
  | VArr (x :: _) => Normal x
  | VStr EmptyString => Normal VUndefined
  | VStr (String c _) => Normal (VStr (String c EmptyString))
  | VObj props => Normal (own_property "0" props)
  | _ => Normal VUndefined
  end.

(** Optional chaining [v?.access]: a nullish [v] gives [undefined]. *)
Definition optional (access : value -> Completion value) (v : value)
  : Completion value :=
  if nullish v then Normal VUndefined else access v.

(** [String.prototype.includes] *)
Fixpoint includes (needle s : string) : bool :=
  String.prefix needle s ||
  match s with
  | EmptyString => false
  | String _ rest => includes needle rest
  end.

(** ** The browser state *)

(** An element the script finds by id: its class list, the text the
    script gave it, and, when it has a [<p>] descendant
    ([querySelector('p')]), that paragraph's text.  Text is kept as the
    value assigned to [textContent]; the page shows its string conversion.
    Assigning to an element's own [textContent] replaces its children. *)
Record Element : Type := mkElement {
  classList : gset string;
  textContent : option value;  (* assigned to the element itself, if ever *)
  paragraph : option value     (* assigned to its paragraph, or its markup *)
}.

Inductive Method : Type := GET | POST.

Record Request : Type := mkRequest {
  url : string;
  method : Method;
  headers : list (string * string);
  body : option value            (* the object handed to JSON.stringify *)
}.

(** A response as the script can observe it: the status, what [text()]
    resolves to and what [json()] resolves to ([None]: the promise
    rejects, for [json()] in particular when the body is not JSON). *)
Record Response : Type := mkResponse {
  status : Z;
  text_body : option string;
  json_body : option value
}.

Inductive FetchOutcome : Type :=
  | NoResponse                    (* DNS, refused connection, timeout ... *)
  | Responded (r : Response).

Abbreviation NetEvent := (Request * FetchOutcome)%type.

(** A reference held by the script: [null] or the id of a found element. *)
Abbreviation ElementRef := (option string).

(** The callbacks the script passes to [showTemporaryMessage]. *)
Inductive Callback : Type :=
  | NoCallback                                   (* null *)
  | HideWrapper                                  (* () => hideNewsletterWrapper() *)
  | ShowFormAgain (form dismiss : ElementRef).   (* un-hide the form and the dismiss link *)

Record Timer : Type := mkTimer {
  delay : Z;
  timer_message : ElementRef;
  timer_callback : Callback
}.

(** A storage area the host has disabled is [None]: reaching for it
    throws.  The server answers a request knowing the requests made so
    far. *)
Record World : Type := mkWorld {
  sessionStorage : option (gmap string string);
  localStorage : option (gmap string string);
  document : gmap string Element;
  timers : list Timer;
  server : list NetEvent -> Request -> FetchOutcome;
  network_log : list NetEvent
}.

Inductive Area : Type := Session | Permanent.

Definition storage (a : Area) (w : World) : option (gmap string string) :=
  match a with
  | Session => sessionStorage w
  | Permanent => localStorage w
  end.

Definition set_storage (a : Area) (m : gmap string string) (w : World) : World :=
  match a with
  | Session => mkWorld (Some m) (localStorage w) (document w) (timers w)
                       (server w) (network_log w)
  | Permanent => mkWorld (sessionStorage w) (Some m) (document w) (timers w)
                         (server w) (network_log w)
  end.

Definition set_document (d : gmap string Element) (w : World) : World :=
  mkWorld (sessionStorage w) (localStorage w) d (timers w)
          (server w) (network_log w).

Definition add_timer (t : Timer) (w : World) : World :=
  mkWorld (sessionStorage w) (localStorage w) (document w) (timers w ++ [t])
          (server w) (network_log w).

Definition log_event (e : NetEvent) (w : World) : World :=
  mkWorld (sessionStorage w) (localStorage w) (document w) (timers w)
          (server w) (network_log w ++ [e]).

(** ** Computations *)

Definition Js (A : Type) : Type := World -> Completion A * World.

Definition ret {A} (a : A) : Js A := fun w => (Normal a, w).

Definition throw {A} (e : Exn) : Js A := fun w => (Throw e, w).

Definition bind {A B} (c : Js A) (k : A -> Js B) : Js B :=
  fun w =>
    match c w with
    | (Normal a, w') => k a w'
    | (Throw e, w') => (Throw e, w')
    end.

(** [try { c } catch (error) { h error }]: what [c] did to the world
    before throwing stays done. *)
Definition try_catch {A} (c : Js A) (h : Exn -> Js A) : Js A :=
  fun w =>
    match c w with
    | (Normal a, w') => (Normal a, w')
    | (Throw e, w') => h e w'
    end.

(** A pure expression that may throw. *)
Definition lift {A} (c : Completion A) : Js A := fun w => (c, w).

Declare Scope js_scope.
Delimit Scope js_scope with js.
Notation "x <- c ;; k" := (bind c (fun x => k))
  (at level 100, c at next level, right associativity) : js_scope.
Notation "c ;;; k" := (bind c (fun _ => k))
  (at level 100, right associativity) : js_scope.
Local Open Scope js_scope.

(** [try { c } finally { f }] *)
Definition try_finally {A} (c : Js A) (f : Js unit) : Js A :=
  fun w =>
    match c w with
    | (r, w') =>
        match f w' with
        | (Normal _, w'') => (r, w'')
        | (Throw e, w'') => (Throw e, w'')
        end
    end.

(** [if (el) { k el }] *)
Definition if_element (el : ElementRef) (k : string -> Js unit) : Js unit :=
  match el with
  | Some id => k id
  | None => ret tt
  end.

(** *** Web Storage *)

Definition getItem (a : Area) (k : string) : Js (option string) :=
  fun w =>
    match storage a w with
    | None => (Throw SecurityError, w)
    | Some m => (Normal (m !! k), w)
    end.

Definition setItem (a : Area) (k v : string) : Js unit :=
  fun w =>
    match storage a w with
    | None => (Throw SecurityError, w)
    | Some m => (Normal tt, set_storage a (<[k := v]> m) w)
    end.

Definition removeItem (a : Area) (k : string) : Js unit :=
  fun w =>
    match storage a w with
    | None => (Throw SecurityError, w)
    | Some m => (Normal tt, set_storage a (delete k m) w)
    end.

(** *** DOM *)

Definition element_ref (id : string) (w : World) : ElementRef :=
  match document w !! id with
  | Some _ => Some id
  | None => None
  end.

Definition getElementById (id : string) : Js ElementRef :=
  fun w => (Normal (element_ref id w), w).

Definition update_element (f : Element -> Element) (id : string) : Js unit :=
  fun w => (Normal tt, set_document (alter f id (document w)) w).

Definition classList_add (c : string) : string -> Js unit :=
  update_element (fun e =>
    mkElement ({[c]} ∪ classList e) (textContent e) (paragraph e)).

Definition classList_remove (c : string) : string -> Js unit :=
  update_element (fun e =>
    mkElement (classList e ∖ {[c]}) (textContent e) (paragraph e)).

(** [const p = el.querySelector('p'); if (p) { p.textContent = text; }] *)
Definition set_paragraph_text (text : value) : string -> Js unit :=
  update_element (fun e =>
    mkElement (classList e) (textContent e)
              (match paragraph e with Some _ => Some text | None => None end)).

(** [el.textContent = text] *)
Definition set_textContent (text : value) : string -> Js unit :=
  update_element (fun e => mkElement (classList e) (Some text) None).

Definition setTimeout (msg : ElementRef) (cb : Callback) (ms : Z) : Js unit :=
  fun w => (Normal tt, add_timer (mkTimer ms msg cb) w).

(** *** Network *)

Definition fetch (req : Request) : Js Response :=
  fun w =>
    let out := server w (network_log w) req in
    let w' := log_event (req, out) w in
    match out with
    | NoResponse => (Throw FetchFailed, w')
    | Responded r => (Normal r, w')
    end.

(** [response.ok] *)
Definition ok (r : Response) : bool := (200 <=? status r) && (status r <=? 299).

Definition text (r : Response) : Js string :=
  match text_body r with
  | Some s => ret s
  | None => throw BodyError
  end.

Definition json (r : Response) : Js value :=
  match json_body r with
  | Some v => ret v
  | None => throw BodyError
  end.

(** ** The script *)

Definition NEWSLETTER_SESSION_KEY : string := "newsletter_subscribed_session".
Definition NEWSLETTER_NEVER_SHOW_KEY : string := "newsletter_never_show".
Definition MESSAGE_DISPLAY_DURATION : Z := 5000.

Definition hasSubscribedThisSession : Js bool :=
  item <- getItem Session NEWSLETTER_SESSION_KEY ;;
  ret (bool_decide (item = Some "true")).

Definition markSubscribedThisSession : Js unit :=
  setItem Session NEWSLETTER_SESSION_KEY "true".

Definition hasUserDismissedPermanently : Js bool :=
  item <- getItem Permanent NEWSLETTER_NEVER_SHOW_KEY ;;
  ret (bool_decide (item = Some "true")).

Definition dismissNewsletter : Js unit :=
  setItem Permanent NEWSLETTER_NEVER_SHOW_KEY "true" ;;;
  wrapperElement <- getElementById "subscription-form-wrapper" ;;
  if_element wrapperElement (classList_add "hidden").

Definition clearDismissal : Js unit :=
  removeItem Permanent NEWSLETTER_NEVER_SHOW_KEY.

Definition clearSessionSubscription : Js unit :=
  removeItem Session NEWSLETTER_SESSION_KEY.

(** [!hasSubscribedThisSession() && !hasUserDismissedPermanently()]: the
    right operand is evaluated only when the left one is true. *)
Definition shouldShowForm : Js bool :=
  subscribed <- hasSubscribedThisSession ;;
  if negb subscribed then
    dismissed <- hasUserDismissedPermanently ;;
    ret (negb dismissed)
  else ret false.

Definition hideNewsletterWrapper : Js unit :=
  wrapperElement <- getElementById "subscription-form-wrapper" ;;
  if_element wrapperElement (classList_add "hidden").

Definition showTemporaryMessage (messageElement : ElementRef) (callback : Callback)
  : Js unit :=
  if_element messageElement (classList_remove "hidden") ;;;
  setTimeout messageElement callback MESSAGE_DISPLAY_DURATION.

Definition run_callback (callback : Callback) : Js unit :=
  match callback with
  | NoCallback => ret tt
  | HideWrapper => hideNewsletterWrapper
  | ShowFormAgain form dismiss =>
      if_element form (classList_remove "hidden") ;;;
      if_element dismiss (classList_remove "hidden")
  end.

(** The function [showTemporaryMessage] hands to [setTimeout], when it
    runs. *)
Definition timeout_fires (t : Timer) : Js unit :=
  if_element (timer_message t) (classList_add "hidden") ;;;
  run_callback (timer_callback t).

Definition token_request (ghostSiteBaseUrl : string) : Request :=
  mkRequest (ghostSiteBaseUrl +:+ "/members/api/integrity-token/") GET
            [("app-pragma", "no-cache"); ("x-ghost-version", "6.0")] None.

Definition getIntegrityToken (ghostSiteBaseUrl : string) : Js string :=
  response <- fetch (token_request ghostSiteBaseUrl) ;;
  if negb (ok response) then throw (TokenStatusError (status response))
  else
    token <- text response ;;
    ret token.

Record Options : Type := mkOptions {
  name : option string;
  newsletters : option (list string)
}.

Definition no_options : Options := mkOptions None None.

Definition payload (email integrityToken : string) (options : Options) : value :=
  VObj ([("email", VStr email);
         ("emailType", VStr "subscribe");
         ("integrityToken", VStr integrityToken)]
        ++ match name options with
           | Some n => if String.eqb n "" then [] else [("name", VStr n)]
           | None => []
           end
        ++ match newsletters options with
           | Some (id :: ids) =>
               [("newsletters",
                 VArr (map (fun id => VObj [("id", VStr id)]) (id :: ids)))]
           | _ => []
           end).

Definition subscribe_request (ghostSiteBaseUrl email integrityToken : string)
    (options : Options) : Request :=
  mkRequest (ghostSiteBaseUrl +:+ "/members/api/send-magic-link") POST
            [("Content-Type", "application/json; charset=utf-8")]
            (Some (payload email integrityToken options)).

Record SubscriptionResult : Type := mkResult {
  success : bool;
  message : option string;
  error : option value
}.

Definition succeeded (msg : string) : SubscriptionResult :=
  mkResult true (Some msg) None.

Definition failed (err : value) : SubscriptionResult :=
  mkResult false None (Some err).

Definition SUCCESS_MESSAGE : string :=
  "Success! Please check your email to confirm your subscription.".
Definition INVALID_EMAIL : string := "Invalid email address".
Definition INVALID_EMAIL_SHOWN : string := "Please enter a valid email address".
Definition SUBSCRIPTION_FAILED : string := "Subscription failed. Please try again.".
Definition NETWORK_ERROR : string :=
  "Network error. Please check your connection and try again.".

Definition and_then {A B} (c : Completion A) (k : A -> Completion B)
  : Completion B :=
  match c with
  | Normal a => k a
  | Throw e => Throw e
  end.

(** [errorData.errors?.[0]?.message] *)
Definition first_error_message (errorData : value) : Completion value :=
  and_then (member "errors" errorData) (fun errors =>
  and_then (optional item0 errors) (fun first =>
  optional (member "message") first)).

(** [errorData.errors?.[0]?.message || 'Subscription failed. Please try again.'] *)
Definition error_message_of (errorData : value) : Completion value :=
  and_then (first_error_message errorData) (fun m =>
  Normal (js_or m (VStr SUBSCRIPTION_FAILED))).

(** The block [if (errorElement) { ... }] that [subscribeToGhost] runs,
    in the same words, for a rejected subscription and in its [catch]. *)
Definition show_error (errorElement subscriptionFormElement dismissElement : ElementRef)
    (errorMessage : value) : Js unit :=
  if_element errorElement (fun el =>
    set_paragraph_text errorMessage el ;;;
    if_element subscriptionFormElement (classList_add "hidden") ;;;
    if_element dismissElement (classList_add "hidden") ;;;
    showTemporaryMessage errorElement
      (ShowFormAgain subscriptionFormElement dismissElement)).

Definition subscribeToGhost (email ghostSiteBaseUrl : string) (options : Options)
  : Js SubscriptionResult :=
  wrapperElement <- getElementById "subscription-form-wrapper" ;;
  emailSentElement <- getElementById "subscription-mail-sent" ;;
  subscriptionFormElement <- getElementById "subscription-form" ;;
  errorElement <- getElementById "subscription-error" ;;
  dismissElement <- getElementById "dismiss-newsletter" ;;
  if String.eqb email "" || negb (includes "@" email) then
    if_element errorElement (fun el =>
      set_paragraph_text (VStr INVALID_EMAIL_SHOWN) el ;;;
      showTemporaryMessage errorElement NoCallback) ;;;
    ret (failed (VStr INVALID_EMAIL))
  else
    try_catch
      (integrityToken <- getIntegrityToken ghostSiteBaseUrl ;;
       response <- fetch (subscribe_request ghostSiteBaseUrl email
                                            integrityToken options) ;;
       if status response =? 201 then
         markSubscribedThisSession ;;;
         if_element subscriptionFormElement (classList_add "hidden") ;;;
         if_element dismissElement (classList_add "hidden") ;;;
         if_element errorElement (classList_add "hidden") ;;;
         showTemporaryMessage emailSentElement HideWrapper ;;;
         ret (succeeded SUCCESS_MESSAGE)
       else
         errorData <- try_catch (json response) (fun _ => ret (VObj [])) ;;
         errorMessage <- lift (error_message_of errorData) ;;
         show_error errorElement subscriptionFormElement dismissElement
                    errorMessage ;;;
         ret (failed errorMessage))
      (fun _ =>
         let errorMessage := VStr NETWORK_ERROR in
         show_error errorElement subscriptionFormElement dismissElement
                    errorMessage ;;;
         ret (failed errorMessage)).

Definition initNewsletterForm : Js unit :=
  show <- shouldShowForm ;;
  if negb show then hideNewsletterWrapper else ret tt.

(** ** Earlier revisions of the script *)

(** The revision that remembered the subscription in [localStorage] under
    one key.  Its [getIntegrityToken] is, word for word, the one above. *)
Module Previous.

Definition NEWSLETTER_STORAGE_KEY : string := "newsletter_subscribed".

Definition hasUserSubscribed : Js bool :=
  item <- getItem Permanent NEWSLETTER_STORAGE_KEY ;;
  ret (bool_decide (item = Some "true")).

Definition markUserAsSubscribed : Js unit :=
  setItem Permanent NEWSLETTER_STORAGE_KEY "true".

Definition clearSubscriptionStatus : Js unit :=
  removeItem Permanent NEWSLETTER_STORAGE_KEY.

(** [if (errorElement) { errorElement.textContent = m;
                         errorElement.classList.remove('hidden'); }] *)
Definition show_error (errorElement : ElementRef) (errorMessage : value) : Js unit :=
  if_element errorElement (fun el =>
    set_textContent errorMessage el ;;;
    classList_remove "hidden" el).

Definition subscribeToGhost (email ghostSiteBaseUrl : string) (options : Options)
  : Js SubscriptionResult :=
  emailSentElement <- getElementById "subscription-mail-sent" ;;
  subscriptionFormElement <- getElementById "subscription-form" ;;
  errorElement <- getElementById "subscription-error" ;;
  if String.eqb email "" || negb (includes "@" email) then
    show_error errorElement (VStr INVALID_EMAIL_SHOWN) ;;;
    ret (failed (VStr INVALID_EMAIL))
  else
    try_catch
      (integrityToken <- getIntegrityToken ghostSiteBaseUrl ;;
       response <- fetch (subscribe_request ghostSiteBaseUrl email
                                            integrityToken options) ;;
       if status response =? 201 then
         markUserAsSubscribed ;;;
         match emailSentElement, subscriptionFormElement with
         | Some sent, Some form =>
             classList_add "hidden" form ;;;
             classList_remove "hidden" sent
         | _, _ => ret tt
         end ;;;
         if_element errorElement (classList_add "hidden") ;;;
         ret (succeeded SUCCESS_MESSAGE)
       else
         errorData <- try_catch (json response) (fun _ => ret (VObj [])) ;;
         errorMessage <- lift (error_message_of errorData) ;;
         show_error errorElement errorMessage ;;;
         ret (failed errorMessage))
      (fun _ =>
         let errorMessage := VStr NETWORK_ERROR in
         show_error errorElement errorMessage ;;;
         ret (failed errorMessage)).

Definition initNewsletterForm : Js unit :=
  subscriptionFormElement <- getElementById "subscription-form" ;;
  alreadySubscribedElement <- getElementById "already-subscribed" ;;
  subscribed <- hasUserSubscribed ;;
  if subscribed then
    if_element subscriptionFormElement (classList_add "hidden") ;;;
    if_element alreadySubscribedElement (classList_remove "hidden")
  else ret tt.

End Previous.

(** The first revision: one request, no token, nothing stored, and no
    [return] statement, so the promise resolves to [undefined]. *)
Module Legacy.

Definition subscribe_request (ghostSiteBaseUrl email : string) : Request :=
  mkRequest (ghostSiteBaseUrl +:+ "/members/api/send-magic-link/") POST
            [("Content-Type", "application/json; charset=utf-8")]
            (Some (VObj [("email", VStr email); ("emailType", VStr "subscribe")])).

Definition subscribeToGhost (email ghostSiteBaseUrl : string) : Js value :=
  emailSentElement <- getElementById "subscription-mail-sent" ;;
  subscriptionFormElement <- getElementById "subscription-form" ;;
  try_finally
    (try_catch
       (result <- fetch (subscribe_request ghostSiteBaseUrl email) ;;
        ret tt)
       (fun _ => ret tt))
    (match emailSentElement, subscriptionFormElement with
     | Some sent, Some form =>
         classList_add "hidden" form ;;;
         classList_remove "invisible" sent
     | _, _ => ret tt
     end) ;;;
  ret VUndefined.

End Legacy.

(** ** Sequences of calls *)

(** What can happen on the page between two looks at the flags: a call of
    one of the script's functions, or a pending timer running. *)
Inductive Action : Type :=
  | CallHasSubscribedThisSession
  | CallMarkSubscribedThisSession
  | CallHasUserDismissedPermanently
  | CallDismissNewsletter
  | CallClearDismissal
  | CallClearSessionSubscription
  | CallShouldShowForm
  | CallInitNewsletterForm
  | CallSubscribeToGhost (email ghostSiteBaseUrl : string) (options : Options)
  | TimeoutFires (t : Timer).

Definition perform (a : Action) : Js unit :=
  match a with
  | CallHasSubscribedThisSession => _ <- hasSubscribedThisSession ;; ret tt
  | CallMarkSubscribedThisSession => markSubscribedThisSession
  | CallHasUserDismissedPermanently => _ <- hasUserDismissedPermanently ;; ret tt
  | CallDismissNewsletter => dismissNewsletter
  | CallClearDismissal => clearDismissal
  | CallClearSessionSubscription => clearSessionSubscription
  | CallShouldShowForm => _ <- shouldShowForm ;; ret tt
  | CallInitNewsletterForm => initNewsletterForm
  | CallSubscribeToGhost email url options =>
      _ <- subscribeToGhost email url options ;; ret tt
  | TimeoutFires t => timeout_fires t
  end.

Fixpoint perform_all (actions : list Action) : Js unit :=
  match actions with
  | [] => ret tt
  | a :: rest => perform a ;;; perform_all rest
  end.

(** ** Describing runs *)

(** [same_but_page w w']: from [w] to [w'] only the page (elements and
    pending timers) changed. *)
Definition same_but_page (w w' : World) : Prop :=
  sessionStorage w' = sessionStorage w /\
  localStorage w' = localStorage w /\
  server w' = server w /\
  network_log w' = network_log w.

(** A computation that completes and touches the page only. *)
Definition page_only (c : Js unit) : Prop :=
  forall w, exists w', c w = (Normal tt, w') /\ same_but_page w w'.

(** The requests an invocation sent: what the log gained between the
    world it started in and the world it left. *)
Definition requests_since (w w' : World) : list NetEvent :=
  drop (length (network_log w)) (network_log w').

(** What the server answers to the token request of an invocation started
    in [w], and to the subscription request that follows it. *)
Definition token_answer (w : World) (ghostSiteBaseUrl : string) : FetchOutcome :=
  server w (network_log w) (token_request ghostSiteBaseUrl).

Definition subscribe_answer (w : World) (ghostSiteBaseUrl email token : string)
    (options : Options) : FetchOutcome :=
  server w
    (network_log w ++ [(token_request ghostSiteBaseUrl, token_answer w ghostSiteBaseUrl)])
    (subscribe_request ghostSiteBaseUrl email token options).

(** [response.json().catch(() => ({}))] *)
Definition error_data (r : Response) : value :=
  match json_body r with
  | Some v => v
  | None => VObj []
  end.

(** The ways through [subscribeToGhost]: for an invocation started in [w],
    the result it returns, the requests it sends and the session storage
    it leaves. *)
Inductive Path (email url : string) (options : Options) (w : World)
  : SubscriptionResult -> list NetEvent -> option (gmap string string) -> Prop :=
  | path_invalid :
      String.eqb email "" || negb (includes "@" email) = true ->
      Path email url options w (failed (VStr INVALID_EMAIL)) [] (sessionStorage w)
  | path_token_unreachable :
      String.eqb email "" || negb (includes "@" email) = false ->
      token_answer w url = NoResponse ->
      Path email url options w (failed (VStr NETWORK_ERROR))
           [(token_request url, NoResponse)] (sessionStorage w)
  | path_token_refused r :
      String.eqb email "" || negb (includes "@" email) = false ->
      token_answer w url = Responded r ->
      ok r = false ->
      Path email url options w (failed (VStr NETWORK_ERROR))
           [(token_request url, Responded r)] (sessionStorage w)
  | path_token_unreadable r :
      String.eqb email "" || negb (includes "@" email) = false ->
      token_answer w url = Responded r ->
      ok r = true ->
      text_body r = None ->
      Path email url options w (failed (VStr NETWORK_ERROR))
           [(token_request url, Responded r)] (sessionStorage w)
  | path_subscribe_unreachable r token :
      String.eqb email "" || negb (includes "@" email) = false ->
      token_answer w url = Responded r ->
      ok r = true ->
      text_body r = Some token ->
      subscribe_answer w url email token options = NoResponse ->
      Path email url options w (failed (VStr NETWORK_ERROR))
           [(token_request url, Responded r);
            (subscribe_request url email token options, NoResponse)]
           (sessionStorage w)
  | path_accepted r token r' m :
      String.eqb email "" || negb (includes "@" email) = false ->
      token_answer w url = Responded r ->
      ok r = true ->
      text_body r = Some token ->
      subscribe_answer w url email token options = Responded r' ->
      status r' = 201 ->
      sessionStorage w = Some m ->
      Path email url options w (succeeded SUCCESS_MESSAGE)
           [(token_request url, Responded r);
            (subscribe_request url email token options, Responded r')]
           (Some (<[NEWSLETTER_SESSION_KEY := "true"]> m))
  | path_accepted_storage_refused r token r' :
      String.eqb email "" || negb (includes "@" email) = false ->
      token_answer w url = Responded r ->
      ok r = true ->
      text_body r = Some token ->
      subscribe_answer w url email token options = Responded r' ->
      status r' = 201 ->
      sessionStorage w = None ->
      Path email url options w (failed (VStr NETWORK_ERROR))
           [(token_request url, Responded r);
            (subscribe_request url email token options, Responded r')]
           None
  | path_rejected r token r' errorMessage :
      String.eqb email "" || negb (includes "@" email) = false ->
      token_answer w url = Responded r ->
      ok r = true ->
      text_body r = Some token ->
      subscribe_answer w url email token options = Responded r' ->
      status r' <> 201 ->
      error_message_of (error_data r') = Normal errorMessage ->
      Path email url options w (failed errorMessage)
           [(token_request url, Responded r);
            (subscribe_request url email token options, Responded r')]
           (sessionStorage w)
  | path_rejected_unreadable r token r' e :
      String.eqb email "" || negb (includes "@" email) = false ->
      token_answer w url = Responded r ->
      ok r = true ->
      text_body r = Some token ->
      subscribe_answer w url email token options = Responded r' ->
      status r' <> 201 ->
      error_message_of (error_data r') = Throw e ->
      Path email url options w (failed (VStr NETWORK_ERROR))
           [(token_request url, Responded r);
            (subscribe_request url email token options, Responded r')]
           (sessionStorage w).

(** A computation that touches the page only and returns [a]. *)
Definition returns_on_page {A} (c : Js A) (a : A) : Prop :=
  forall w, exists w1, c w = (Normal a, w1) /\ same_but_page w w1.

(** ** The words of the specification *)

(** "The email contains an [@] character." *)
Definition contains_at (email : string) : Prop :=
  In "@"%char (String.list_ascii_of_string email).

(** A request to the subscription endpoint. *)
Definition is_subscription_request (req : Request) : Prop := method req = POST.






(** ** Example worlds *)

Definition example_page : gmap string Element :=
  list_to_map
    [("subscription-form-wrapper", mkElement ∅ None None);
     ("subscription-form", mkElement ∅ None None);
     ("subscription-mail-sent", mkElement {["hidden"]} None None);
     ("subscription-error", mkElement {["hidden"]} None (Some (VStr "")));
     ("dismiss-newsletter", mkElement ∅ None None)].

(** A server that gives the same two answers whatever was asked before. *)
Definition example_server (token_reply subscribe_reply : FetchOutcome)
  : list NetEvent -> Request -> FetchOutcome :=
  fun _ req =>
    match method req with
    | GET => token_reply
    | POST => subscribe_reply
    end.

Definition example_world (token_reply subscribe_reply : FetchOutcome) : World :=
  mkWorld (Some ∅) (Some ∅) example_page []
          (example_server token_reply subscribe_reply) [].

(** The same page in a browser whose host has disabled storage. *)
Definition storage_refused_world (token_reply subscribe_reply : FetchOutcome)
  : World :=
  mkWorld None None example_page []
          (example_server token_reply subscribe_reply) [].

Definition token_reply : FetchOutcome :=
  Responded (mkResponse 200 (Some "tok_abc123") None).

Definition created_reply : FetchOutcome :=
  Responded (mkResponse 201 None None).

Definition rejected_reply (errorBody : option value) : FetchOutcome :=
  Responded (mkResponse 400 None errorBody).

Definition member_exists_body : value :=
  VObj [("errors", VArr [VObj [("message", VStr "Member already exists")]])].



(** ** Flags and answers *)

(** The session flag is set and the permanent storage can be reached. *)
Definition session_marked (w : World) : Prop :=
  (exists m, sessionStorage w = Some m /\
             m !! NEWSLETTER_SESSION_KEY = Some "true") /\
  is_Some (localStorage w).

(** What a storage area holds under a key; [None] when the area is
    refused. *)
Definition stored (a : Area) (k : string) (w : World) : option (option string) :=
  match storage a w with
  | Some m => Some (m !! k)
  | None => None
  end.

(** An operation on the session flag: it leaves the permanent storage,
    and so the reading of the permanent flag, as they were, and every
    session key but [newsletter_subscribed_session] too. *)
Definition session_key_only (op : Js unit) (w : World) : Prop :=
  localStorage (op w).2 = localStorage w /\
  (hasUserDismissedPermanently (op w).2).1 = (hasUserDismissedPermanently w).1 /\
  forall k, k <> "newsletter_subscribed_session" ->
    stored Session k (op w).2 = stored Session k w.

(** An operation on the permanent flag, likewise. *)
Definition permanent_key_only (op : Js unit) (w : World) : Prop :=
  sessionStorage (op w).2 = sessionStorage w /\
  (hasSubscribedThisSession (op w).2).1 = (hasSubscribedThisSession w).1 /\
  forall k, k <> "newsletter_never_show" ->
    stored Permanent k (op w).2 = stored Permanent k w.


(** ** Reading and describing the page *)

(** The class list of the element with a given id, if the page has one. *)
Definition classes_of (id : string) (w : World) : option (gset string) :=
  classList <$> document w !! id.

(** The text of the paragraph of the element with a given id. *)
Definition paragraph_of (id : string) (w : World) : option value :=
  document w !! id ≫= paragraph.

Definition with_class (c : string) (e : Element) : Element :=
  mkElement ({[c]} ∪ classList e) (textContent e) (paragraph e).

Definition without_class (c : string) (e : Element) : Element :=
  mkElement (classList e ∖ {[c]}) (textContent e) (paragraph e).

Definition with_paragraph (text : value) (e : Element) : Element :=
  mkElement (classList e) (textContent e)
            (match paragraph e with Some _ => Some text | None => None end).

Definition with_textContent (text : value) (e : Element) : Element :=
  mkElement (classList e) (Some text) None.

(** The world after [if (el) { ... el changed by f ... }]. *)
Definition on_element (f : Element -> Element) (el : ElementRef) (w : World) : World :=
  match el with
  | Some id => set_document (alter f id (document w)) w
  | None => w
  end.

(** The world after [showTemporaryMessage(el, callback)]. *)
Definition message_displayed (el : ElementRef) (callback : Callback) (w : World)
  : World :=
  add_timer (mkTimer MESSAGE_DISPLAY_DURATION el callback)
            (on_element (without_class "hidden") el w).

(** The world after the block that refuses an address. *)
Definition refusal_displayed (errorElement : ElementRef) (w : World) : World :=
  match errorElement with
  | Some _ =>
      message_displayed errorElement NoCallback
        (on_element (with_paragraph (VStr INVALID_EMAIL_SHOWN)) errorElement w)
  | None => w
  end.

(** The world after the block that follows an accepted subscription. *)
Definition success_displayed
    (emailSentElement errorElement subscriptionFormElement dismissElement : ElementRef)
    (w : World) : World :=
  message_displayed emailSentElement HideWrapper
    (on_element (with_class "hidden") errorElement
       (on_element (with_class "hidden") dismissElement
          (on_element (with_class "hidden") subscriptionFormElement w))).

(** The world after [show_error]. *)
Definition error_displayed
    (errorElement subscriptionFormElement dismissElement : ElementRef)
    (errorMessage : value) (w : World) : World :=
  match errorElement with
  | Some _ =>
      message_displayed errorElement
        (ShowFormAgain subscriptionFormElement dismissElement)
        (on_element (with_class "hidden") dismissElement
           (on_element (with_class "hidden") subscriptionFormElement
              (on_element (with_paragraph errorMessage) errorElement w)))
  | None => w
  end.

(** The world after a timer set by [showTemporaryMessage] has run. *)
Definition timer_done (t : Timer) (w : World) : World :=
  let w1 := on_element (with_class "hidden") (timer_message t) w in
  match timer_callback t with
  | NoCallback => w1
  | HideWrapper =>
      on_element (with_class "hidden") (element_ref "subscription-form-wrapper" w1) w1
  | ShowFormAgain form dismiss =>
      on_element (without_class "hidden") dismiss
        (on_element (without_class "hidden") form w1)
  end.

(** [w0] has elements under the same ids as [w]. *)
Definition same_elements (w w0 : World) : Prop :=
  dom (document w0) = dom (document w).

(** [w0] shows the page of [w]: same elements, same pending timers. *)
Definition same_page (w w0 : World) : Prop :=
  document w0 = document w /\ timers w0 = timers w.

(** The permanent flag is set and the session storage can be reached. *)
Definition dismissal_marked (w : World) : Prop :=
  (exists l, localStorage w = Some l /\
             l !! NEWSLETTER_NEVER_SHOW_KEY = Some "true") /\
  is_Some (sessionStorage w).

(** A server that rejects the first subscription request it sees and
    accepts the later ones. *)
Definition retry_server : list NetEvent -> Request -> FetchOutcome :=
  fun log req =>
    match method req with
    | GET => token_reply
    | POST =>
        match log with
        | [_] => rejected_reply (Some member_exists_body)
        | _ => created_reply
        end
    end.

Definition retry_world : World :=
  mkWorld (Some ∅) (Some ∅) example_page [] retry_server [].

(** ** Reasoning about runs *)

Lemma same_but_page_refl w : same_but_page w w.
Proof. by repeat split. Qed.

Lemma same_but_page_trans w1 w2 w3 :
  same_but_page w1 w2 -> same_but_page w2 w3 -> same_but_page w1 w3.
Proof.
  intros (?&?&?&?) (?&?&?&?). repeat split; congruence.
Qed.

Lemma page_only_ret : page_only (ret tt).
Proof. intros w. exists w. split; [done | apply same_but_page_refl]. Qed.

Lemma page_only_seq (c k : Js unit) :
  page_only c -> page_only k -> page_only (c ;;; k).
Proof.
  intros Hc Hk w. destruct (Hc w) as (w1 & E1 & F1).
  destruct (Hk w1) as (w2 & E2 & F2).
  exists w2. unfold bind. rewrite E1. split; [done |].
  by eapply same_but_page_trans.
Qed.

Lemma page_only_lookup (id : string) (k : ElementRef -> Js unit) :
  (forall el, page_only (k el)) -> page_only (el <- getElementById id ;; k el).
Proof. intros Hk w. unfold bind, getElementById. apply Hk. Qed.

Lemma page_only_update f id : page_only (update_element f id).
Proof. intros w. eexists. split; [reflexivity |]. by repeat split. Qed.

Lemma page_only_if_element el k :
  (forall id, page_only (k id)) -> page_only (if_element el k).
Proof. intros Hk. destruct el; [apply Hk | apply page_only_ret]. Qed.

Lemma page_only_setTimeout el cb ms : page_only (setTimeout el cb ms).
Proof. intros w. eexists. split; [reflexivity |]. by repeat split. Qed.

Ltac page_only :=
  repeat first
    [ apply page_only_ret | apply page_only_seq | apply page_only_lookup; intros ?
    | apply page_only_if_element; intros ? | apply page_only_update
    | apply page_only_setTimeout ].

Lemma page_only_showTemporaryMessage el cb : page_only (showTemporaryMessage el cb).
Proof. unfold showTemporaryMessage, classList_remove. page_only. Qed.

Lemma page_only_hideNewsletterWrapper : page_only hideNewsletterWrapper.
Proof. unfold hideNewsletterWrapper, classList_add. page_only. Qed.

Lemma page_only_show_error e f d m : page_only (show_error e f d m).
Proof.
  unfold show_error, set_paragraph_text, classList_add. page_only.
Qed.

Lemma page_only_timeout_fires t : page_only (timeout_fires t).
Proof.
  unfold timeout_fires, run_callback, classList_add, classList_remove.
  destruct (timer_callback t); page_only.
Qed.

Lemma requests_since_app w w' l :
  network_log w' = network_log w ++ l -> requests_since w w' = l.
Proof. intros E. unfold requests_since. rewrite E. apply drop_app_length. Qed.

Lemma bind_getElementById {A} id (k : ElementRef -> Js A) w :
  (el <- getElementById id ;; k el) w = k (element_ref id w) w.
Proof. reflexivity. Qed.

Lemma bind_eq {A B} (c : Js A) (k : A -> Js B) w :
  bind c k w
  = match c w with
    | (Normal a, w') => k a w'
    | (Throw e, w') => (Throw e, w')
    end.
Proof. reflexivity. Qed.

Lemma try_catch_eq {A} (c : Js A) (h : Exn -> Js A) w :
  try_catch c h w
  = match c w with
    | (Normal a, w') => (Normal a, w')
    | (Throw e, w') => h e w'
    end.
Proof. reflexivity. Qed.

Lemma seq_page_only {A} (c : Js unit) (k : Js A) w :
  page_only c ->
  exists w1, same_but_page w w1 /\ (c ;;; k) w = k w1.
Proof.
  intros Hc. destruct (Hc w) as (w1 & E & F). exists w1.
  rewrite bind_eq, E. done.
Qed.

Lemma returns_on_page_ret {A} (a : A) : returns_on_page (ret a) a.
Proof. intros w. exists w. split; [done | apply same_but_page_refl]. Qed.

Lemma returns_on_page_seq {A} (c : Js unit) (k : Js A) a :
  page_only c -> returns_on_page k a -> returns_on_page (c ;;; k) a.
Proof.
  intros Hc Hk w. destruct (seq_page_only c k w Hc) as (w1 & F1 & E1).
  destruct (Hk w1) as (w2 & E2 & F2). exists w2. rewrite E1, E2.
  split; [done | by eapply same_but_page_trans].
Qed.

Ltac returns_on_page :=
  repeat first
    [ apply returns_on_page_ret
    | apply returns_on_page_seq; [page_only |] ].

Lemma getIntegrityToken_run url w :
  getIntegrityToken url w
  = (match token_answer w url with
     | NoResponse => Throw FetchFailed
     | Responded r =>
         if ok r then
           match text_body r with
           | Some token => Normal token
           | None => Throw BodyError
           end
         else Throw (TokenStatusError (status r))
     end,
     log_event (token_request url, token_answer w url) w).
Proof.
  unfold getIntegrityToken, fetch, text, token_answer. rewrite bind_eq.
  destruct (server w (network_log w) (token_request url)) as [|r]; [done |].
  destruct (ok r); [| done]. cbn.
  rewrite bind_eq. by destruct (text_body r).
Qed.

Lemma error_data_run r w :
  try_catch (json r) (fun _ => ret (VObj [])) w = (Normal (error_data r), w).
Proof. unfold try_catch, json, error_data. by destruct (json_body r). Qed.

(** The [catch] block of [subscribeToGhost]. *)
Lemma catch_block_run e f d w :
  exists w1, same_but_page w w1 /\
    (show_error e f d (VStr NETWORK_ERROR) ;;; ret (failed (VStr NETWORK_ERROR))) w
    = (Normal (failed (VStr NETWORK_ERROR)), w1).
Proof. apply seq_page_only, page_only_show_error. Qed.

Lemma subscribeToGhost_run email url options w :
  exists result sent w',
    subscribeToGhost email url options w = (Normal result, w') /\
    Path email url options w result sent (sessionStorage w') /\
    network_log w' = network_log w ++ sent /\
    localStorage w' = localStorage w /\
    server w' = server w.
Proof.
  unfold subscribeToGhost.
  repeat (rewrite bind_getElementById; cbv beta).
  generalize (element_ref "subscription-error" w),
             (element_ref "subscription-form" w),
             (element_ref "dismiss-newsletter" w),
             (element_ref "subscription-mail-sent" w).
  intros errorElement subscriptionFormElement dismissElement emailSentElement.
  destruct (String.eqb email "" || negb (includes "@" email)) eqn:Hvalid.
  { (* the address is refused before any request *)
    edestruct (seq_page_only (A := SubscriptionResult)) as (w1 & (Fs & Fl & Fv & Fn) & E);
      [| rewrite E]; [unfold set_paragraph_text; page_only; apply page_only_showTemporaryMessage |].
    exists (failed (VStr INVALID_EMAIL)), [], w1.
    rewrite Fs, Fl, Fv, Fn, app_nil_r. repeat split. by constructor. }
  assert (Hcatch : forall w1 sent,
    Path email url options w (failed (VStr NETWORK_ERROR)) sent (sessionStorage w1) ->
    network_log w1 = network_log w ++ sent ->
    localStorage w1 = localStorage w -> server w1 = server w ->
    exists result sent w',
      (show_error errorElement subscriptionFormElement dismissElement
                  (VStr NETWORK_ERROR) ;;;
       ret (failed (VStr NETWORK_ERROR))) w1 = (Normal result, w') /\
      Path email url options w result sent (sessionStorage w') /\
      network_log w' = network_log w ++ sent /\
      localStorage w' = localStorage w /\
      server w' = server w).
  { intros w1 sent HP Hn Hl Hv.
    destruct (catch_block_run errorElement subscriptionFormElement dismissElement w1)
      as (w2 & (Fs & Fl & Fv & Fn) & E).
    exists (failed (VStr NETWORK_ERROR)), sent, w2.
    rewrite E, Fs, Fl, Fv, Fn. done. }
  rewrite try_catch_eq, bind_eq, getIntegrityToken_run.
  destruct (token_answer w url) as [|r] eqn:Htoken.
  { apply (Hcatch _ [(token_request url, NoResponse)]);
      [cbn; by apply path_token_unreachable | done..]. }
  destruct (ok r) eqn:Hok;
    [| by apply (Hcatch _ [(token_request url, Responded r)]);
          [cbn; apply path_token_refused | done..]].
  destruct (text_body r) as [token|] eqn:Htext;
    [| by apply (Hcatch _ [(token_request url, Responded r)]);
          [cbn; apply path_token_unreadable | done..]].
  rewrite bind_eq. unfold fetch. cbn [server network_log log_event].
  assert (Hanswer : server w (network_log w ++ [(token_request url, Responded r)])
                      (subscribe_request url email token options)
                    = subscribe_answer w url email token options)
    by (unfold subscribe_answer; by rewrite Htoken).
  rewrite Hanswer. clear Hanswer.
  destruct (subscribe_answer w url email token options) as [|r'] eqn:Hanswer.
  { apply (Hcatch _ [(token_request url, Responded r);
                     (subscribe_request url email token options, NoResponse)]);
      [cbn; by eapply path_subscribe_unreachable | cbn; by rewrite <- app_assoc | done..]. }
  destruct (Z.eqb_spec (status r') 201) as [H201 | H201].
  - (* accepted *)
    rewrite bind_eq. unfold markSubscribedThisSession, setItem. cbn [storage sessionStorage log_event].
    destruct (sessionStorage w) as [m|] eqn:Hsession.
    + match goal with
      | |- context [ ?c (set_storage Session ?m' ?w0) ] =>
          assert (Hpage : returns_on_page c (succeeded SUCCESS_MESSAGE))
            by (unfold showTemporaryMessage, classList_add, classList_remove;
                returns_on_page);
          destruct (Hpage (set_storage Session m' w0))
            as (w1 & E & (Fs & Fl & Fv & Fn)); rewrite E; clear Hpage E
      end.
      eexists _, _, w1. split; [reflexivity |].
      rewrite Fs, Fl, Fv, Fn. cbn. rewrite <- app_assoc.
      split; [by eapply path_accepted | done].
    + apply (Hcatch _ [(token_request url, Responded r);
                       (subscribe_request url email token options, Responded r')]);
        [cbn; rewrite Hsession; by eapply path_accepted_storage_refused
        | cbn; by rewrite <- app_assoc | done..].
  - (* rejected *)
    rewrite bind_eq, error_data_run, bind_eq. unfold lift.
    destruct (error_message_of (error_data r')) as [errorMessage | e] eqn:Hmessage.
    + match goal with
      | |- context [ ?c (log_event ?e2 (log_event ?e1 w)) ] =>
          assert (Hpage : returns_on_page c (failed errorMessage))
            by (apply returns_on_page_seq;
                [apply page_only_show_error | apply returns_on_page_ret]);
          destruct (Hpage (log_event e2 (log_event e1 w)))
            as (w1 & E & (Fs & Fl & Fv & Fn)); rewrite E; clear Hpage E
      end.
      eexists _, _, w1. split; [reflexivity |].
      rewrite Fs, Fl, Fv, Fn. cbn. rewrite <- app_assoc.
      split; [by eapply path_rejected | done].
    + apply (Hcatch _ [(token_request url, Responded r);
                       (subscribe_request url email token options, Responded r')]);
        [cbn; by eapply path_rejected_unreadable
        | cbn; by rewrite <- app_assoc | done..].
Qed.

(** Every invocation returns a result; [Path] tells which. *)
Lemma subscribeToGhost_path email url options w :
  exists result,
    (subscribeToGhost email url options w).1 = Normal result /\
    Path email url options w result
         (requests_since w (subscribeToGhost email url options w).2)
         (sessionStorage (subscribeToGhost email url options w).2) /\
    localStorage (subscribeToGhost email url options w).2 = localStorage w /\
    server (subscribeToGhost email url options w).2 = server w.
Proof.
  destruct (subscribeToGhost_run email url options w)
    as (result & sent & w' & E & HP & Hn & Hl & Hv).
  exists result. rewrite E. cbn [fst snd].
  by rewrite (requests_since_app _ _ _ Hn).
Qed.

(** ** Addresses *)

Lemma includes_at_cons c rest :
  includes "@" (String c rest)
  = (if Ascii.ascii_dec "@" c then true else false) || includes "@" rest.
Proof.
  change (includes "@" (String c rest))
    with ((if Ascii.ascii_dec "@" c then String.prefix "" rest else false)
          || includes "@" rest).
  destruct (Ascii.ascii_dec "@" c); [| done]. by destruct rest.
Qed.

Lemma includes_contains_at email :
  includes "@" email = true <-> contains_at email.
Proof.
  unfold contains_at. induction email as [| c rest IH].
  - split; [discriminate | intros []].
  - rewrite includes_at_cons. change (String.list_ascii_of_string (String c rest))
      with (c :: String.list_ascii_of_string rest).
    destruct (Ascii.ascii_dec "@" c) as [E | Hne].
    + split; [intros _; by left | done].
    + rewrite orb_false_l, IH. split; [by right |].
      intros [E | H]; [by subst | done].
Qed.

Lemma refused_without_at email :
  ~ contains_at email ->
  String.eqb email "" || negb (includes "@" email) = true.
Proof.
  intros H. destruct (includes "@" email) eqn:E.
  - by apply includes_contains_at in E.
  - apply orb_true_r.
Qed.

Lemma contains_at_of_valid email :
  String.eqb email "" || negb (includes "@" email) = false -> contains_at email.
Proof.
  intros H. apply orb_false_elim in H as [_ H].
  apply includes_contains_at. by destruct (includes "@" email).
Qed.

(** ** The script's expressions on concrete values *)

Example includes_at_address : includes "@" "user@example.com" = true.
Proof. reflexivity. Qed.

Example includes_at_empty : includes "@" "" = false.
Proof. reflexivity. Qed.

Example message_found :
  error_message_of member_exists_body = Normal (VStr "Member already exists").
Proof. reflexivity. Qed.

Example message_absent :
  error_message_of (VObj []) = Normal (VStr SUBSCRIPTION_FAILED).
Proof. reflexivity. Qed.

Example errors_empty :
  error_message_of (VObj [("errors", VArr [])]) = Normal (VStr SUBSCRIPTION_FAILED).
Proof. reflexivity. Qed.

Example errors_a_string :
  error_message_of (VObj [("errors", VStr "oops")]) = Normal (VStr SUBSCRIPTION_FAILED).
Proof. reflexivity. Qed.

(** [errors[0]] is also the property "0" of an object. *)
Example errors_keyed :
  error_message_of (VObj [("errors", VObj [("0", VObj [("message", VStr "keyed")])])])
  = Normal (VStr "keyed").
Proof. reflexivity. Qed.

Example message_zero :
  error_message_of (VObj [("errors", VArr [VObj [("message", VNum 0)]])])
  = Normal (VStr SUBSCRIPTION_FAILED).
Proof. reflexivity. Qed.

Example body_null : error_message_of VNull = Throw TypeError.
Proof. reflexivity. Qed.

Example payload_with_options :
  payload "user@example.com" "tok" (mkOptions (Some "Ada") (Some ["n1"; "n2"]))
  = VObj [("email", VStr "user@example.com");
          ("emailType", VStr "subscribe");
          ("integrityToken", VStr "tok");
          ("name", VStr "Ada");
          ("newsletters", VArr [VObj [("id", VStr "n1")]; VObj [("id", VStr "n2")]])].
Proof. reflexivity. Qed.

Example payload_with_empty_options :
  payload "user@example.com" "tok" (mkOptions (Some "") (Some []))
  = VObj [("email", VStr "user@example.com");
          ("emailType", VStr "subscribe");
          ("integrityToken", VStr "tok")].
Proof. reflexivity. Qed.

(** ** Facts about paths *)

Lemma event_in_one (ev ev' : NetEvent) : In ev [ev'] -> ev = ev'.
Proof. intros [E | []]. done. Qed.

Lemma event_in_two (ev e1 e2 : NetEvent) : In ev [e1; e2] -> ev = e1 \/ ev = e2.
Proof. intros [E | [E | []]]; auto. Qed.

Lemma hasSubscribedThisSession_reads w w' :
  sessionStorage w' = sessionStorage w ->
  (hasSubscribedThisSession w').1 = (hasSubscribedThisSession w).1.
Proof.
  intros E. unfold hasSubscribedThisSession, getItem. rewrite !bind_eq.
  cbn [storage]. rewrite E. by destruct (sessionStorage w).
Qed.

Lemma hasUserDismissedPermanently_reads w w' :
  localStorage w' = localStorage w ->
  (hasUserDismissedPermanently w').1 = (hasUserDismissedPermanently w).1.
Proof.
  intros E. unfold hasUserDismissedPermanently, getItem. rewrite !bind_eq.
  cbn [storage]. rewrite E. by destruct (localStorage w).
Qed.

Lemma hasSubscribedThisSession_marked w m :
  sessionStorage w = Some (<[NEWSLETTER_SESSION_KEY := "true"]> m) ->
  hasSubscribedThisSession w = (Normal true, w).
Proof.
  intros E. unfold hasSubscribedThisSession, getItem. rewrite bind_eq.
  cbn [storage]. rewrite E, lookup_insert_eq. done.
Qed.


(** ** The testable properties *)



(** What the refusal of an address does to the page: the paragraph of the
    error element, when there is one, gets the text shown to the visitor. *)
Lemma refusal_shown email url options w e old :
  String.eqb email "" || negb (includes "@" email) = true ->
  document w !! "subscription-error" = Some e ->
  paragraph e = Some old ->
  exists e',
    document (subscribeToGhost email url options w).2 !! "subscription-error" = Some e' /\
    paragraph e' = Some (VStr INVALID_EMAIL_SHOWN).
Proof.
  intros Hv He Hp. unfold subscribeToGhost.
  repeat (rewrite bind_getElementById; cbv beta). rewrite Hv.
  unfold element_ref. rewrite He.
  cbn. rewrite !lookup_alter_eq, He. cbn. rewrite Hp. eauto.
Qed.

(** C2, as the script has it.  For every email without an [@],
    [subscribeToGhost] returns [{success: false, error: "Invalid email
    address"}] and sends no request, neither for the token nor for the
    subscription; "Please enter a valid email address" is the text it puts
    in the paragraph of the error element. *)
Theorem invalid_email_refused email url options w :
  let run := subscribeToGhost email url options w in
  ~ contains_at email ->
  run.1 = Normal (mkResult false None (Some (VStr "Invalid email address"))) /\
  requests_since w run.2 = [] /\
  network_log run.2 = network_log w /\
  (forall e old,
     document w !! "subscription-error" = Some e -> paragraph e = Some old ->
     exists e',
       document run.2 !! "subscription-error" = Some e' /\
       paragraph e' = Some (VStr "Please enter a valid email address")).
Proof.
  intros run Hat. subst run. apply refused_without_at in Hat.
  destruct (subscribeToGhost_run email url options w)
    as (result & sent & w' & E & HP & Hn & _ & _).
  split; [| split; [| split]].
  - rewrite E. cbn. destruct HP; [reflexivity | congruence..].
  - rewrite E. cbn. rewrite (requests_since_app _ _ _ Hn).
    destruct HP; [reflexivity | congruence..].
  - rewrite E. cbn. rewrite Hn. destruct HP; [apply app_nil_r | congruence..].
  - intros e old He Hp. by eapply refusal_shown.
Qed.

Lemma invalid_email_refused_witness :
  let run := subscribeToGhost "user.example.com" "https://ghost.example" no_options
               (example_world token_reply created_reply) in
  run.1 = Normal (mkResult false None (Some (VStr "Invalid email address"))) /\
  requests_since (example_world token_reply created_reply) run.2 = [] /\
  network_log run.2 = [] /\
  (forall e old,
     example_page !! "subscription-error" = Some e -> paragraph e = Some old ->
     exists e',
       document run.2 !! "subscription-error" = Some e' /\
       paragraph e' = Some (VStr "Please enter a valid email address")).
Proof.
  apply (invalid_email_refused "user.example.com" "https://ghost.example" no_options
           (example_world token_reply created_reply)).
  unfold contains_at. cbn. intros H.
  repeat (destruct H as [H | H]; [discriminate H |]). exact H.
Defined.

(** C2 as stated fails: the address without [@] is answered with "Invalid
    email address", not with "Please enter a valid email address". *)
Lemma invalid_email_error_text :
  let run := subscribeToGhost "user.example.com" "https://ghost.example" no_options
               (example_world token_reply created_reply) in
  ~ contains_at "user.example.com" /\
  run.1 = Normal (mkResult false None (Some (VStr "Invalid email address"))) /\
  run.1 <> Normal (mkResult false None
                     (Some (VStr "Please enter a valid email address"))).
Proof.
  split; [| split].
  - unfold contains_at. cbn. intros H.
    repeat (destruct H as [H | H]; [discriminate H |]). exact H.
  - vm_compute. reflexivity.
  - vm_compute. discriminate.
Qed.

(** C3.  In every invocation in which the request to the integrity-token
    endpoint gets no response, [subscribeToGhost] returns [{success: false,
    error: "Network error. Please check your connection and try again."}]
    and the subscription endpoint is never called: the token request is
    the only request sent. *)
Theorem token_unreachable email url options w :
  let run := subscribeToGhost email url options w in
  In (token_request url, NoResponse) (requests_since w run.2) ->
  run.1 = Normal (mkResult false None
             (Some (VStr "Network error. Please check your connection and try again."))) /\
  requests_since w run.2 = [(token_request url, NoResponse)] /\
  (forall ev, In ev (requests_since w run.2) -> ~ is_subscription_request ev.1).
Proof.
  intros run Hin. subst run.
  destruct (subscribeToGhost_path email url options w) as (result & E & HP & _ & _).
  rewrite E. clear E.
  remember (requests_since w (subscribeToGhost email url options w).2) as sent.
  remember (sessionStorage (subscribeToGhost email url options w).2) as s'.
  destruct HP;
    try (by destruct Hin);
    try (apply event_in_one in Hin; inversion Hin);
    try (apply event_in_two in Hin as [Hin | Hin]; by inversion Hin).
  split; [done | split; [done |]].
  intros ev Hev. apply event_in_one in Hev as ->. discriminate.
Qed.

Lemma token_unreachable_witness :
  let w := example_world NoResponse created_reply in
  let run := subscribeToGhost "user@example.com" "https://ghost.example" no_options w in
  run.1 = Normal (mkResult false None
             (Some (VStr "Network error. Please check your connection and try again."))) /\
  requests_since w run.2 = [(token_request "https://ghost.example", NoResponse)] /\
  (forall ev, In ev (requests_since w run.2) -> ~ is_subscription_request ev.1).
Proof.
  apply (token_unreachable "user@example.com" "https://ghost.example" no_options
           (example_world NoResponse created_reply)).
  vm_compute. by left.
Defined.

(** *** Rejected subscriptions *)







(** A body that parses to [null] makes the property read throw inside the
    [try] block, and the [catch] block answers for it. *)
Lemma null_body_caught :
  let w := example_world token_reply (rejected_reply (Some VNull)) in
  (subscribeToGhost "user@example.com" "https://ghost.example" no_options w).1
  = Normal (failed (VStr NETWORK_ERROR)).
Proof. vm_compute. reflexivity. Qed.



(** *** Storage the host refuses *)

Lemma getItem_refused a k w :
  storage a w = None -> getItem a k w = (Throw SecurityError, w).
Proof. intros E. unfold getItem. by rewrite E. Qed.

Lemma setItem_refused a k v w :
  storage a w = None -> setItem a k v w = (Throw SecurityError, w).
Proof. intros E. unfold setItem. by rewrite E. Qed.

Lemma removeItem_refused a k w :
  storage a w = None -> removeItem a k w = (Throw SecurityError, w).
Proof. intros E. unfold removeItem. by rewrite E. Qed.

Lemma Path_keeps_refusal email url options w result sent s' :
  Path email url options w result sent s' ->
  sessionStorage w = None -> s' = None.
Proof. intros HP E. destruct HP; congruence. Qed.

(** C6, as the script has it.  Where the host has disabled both storage
    areas, the script's storage functions do not absorb the failure: each
    read and each write throws the storage error to its caller and changes
    nothing, and so do [shouldShowForm] and [initNewsletterForm].  Only
    [subscribeToGhost] never throws: it always returns a result, its one
    storage write being inside its [try] block. *)
Theorem storage_refused w :
  sessionStorage w = None -> localStorage w = None ->
  hasSubscribedThisSession w = (Throw SecurityError, w) /\
  hasUserDismissedPermanently w = (Throw SecurityError, w) /\
  shouldShowForm w = (Throw SecurityError, w) /\
  markSubscribedThisSession w = (Throw SecurityError, w) /\
  dismissNewsletter w = (Throw SecurityError, w) /\
  clearDismissal w = (Throw SecurityError, w) /\
  clearSessionSubscription w = (Throw SecurityError, w) /\
  initNewsletterForm w = (Throw SecurityError, w) /\
  (forall email url options,
     let run := subscribeToGhost email url options w in
     (exists r, run.1 = Normal r) /\
     sessionStorage run.2 = None /\ localStorage run.2 = None).
Proof.
  intros Hs Hl.
  assert (Hread : hasSubscribedThisSession w = (Throw SecurityError, w)).
  { unfold hasSubscribedThisSession. by rewrite bind_eq, getItem_refused. }
  assert (Hshow : shouldShowForm w = (Throw SecurityError, w)).
  { unfold shouldShowForm. by rewrite bind_eq, Hread. }
  repeat apply conj; try intros email ghost options run.
  - exact Hread.
  - unfold hasUserDismissedPermanently. by rewrite bind_eq, getItem_refused.
  - exact Hshow.
  - by apply setItem_refused.
  - unfold dismissNewsletter. by rewrite bind_eq, setItem_refused.
  - by apply removeItem_refused.
  - by apply removeItem_refused.
  - unfold initNewsletterForm. by rewrite bind_eq, Hshow.
  - subst run.
    destruct (subscribeToGhost_path email ghost options w) as (r & E & HP & El & _).
    split; [by exists r | split; [| by rewrite El]].
    by eapply Path_keeps_refusal.
Qed.

Lemma storage_refused_witness :
  let w := storage_refused_world token_reply created_reply in
  shouldShowForm w = (Throw SecurityError, w) /\
  dismissNewsletter w = (Throw SecurityError, w) /\
  exists r, (subscribeToGhost "user@example.com" "https://ghost.example"
               no_options w).1 = Normal r.
Proof.
  intros w.
  destruct (storage_refused w) as (_ & _ & Hshow & _ & Hdismiss & _ & _ & _ & Hrun);
    [reflexivity | reflexivity |].
  split; [exact Hshow | split; [exact Hdismiss |]].
  apply (Hrun "user@example.com" "https://ghost.example" no_options).
Defined.

(** C6 as stated fails: with storage disabled, reading the session flag
    does not answer false and writing it is not a silent no-op; both throw. *)
Lemma refused_storage_throws :
  let w := storage_refused_world token_reply created_reply in
  sessionStorage w = None /\ localStorage w = None /\
  (hasSubscribedThisSession w).1 = Throw SecurityError /\
  (hasSubscribedThisSession w).1 <> Normal false /\
  (markSubscribedThisSession w).1 = Throw SecurityError /\
  (markSubscribedThisSession w).1 <> Normal tt.
Proof. repeat split; discriminate. Qed.

(** With storage disabled an accepted subscription is reported as a
    network error: the write of the flag throws inside the [try] block. *)
Lemma accepted_but_storage_refused :
  let w := storage_refused_world token_reply created_reply in
  (subscribeToGhost "user@example.com" "https://ghost.example" no_options w).1
  = Normal (failed (VStr NETWORK_ERROR)).
Proof. vm_compute. reflexivity. Qed.

(** *** The shape of results *)





(** *** The two flags *)

Lemma session_marked_page w w' :
  same_but_page w w' -> session_marked w -> session_marked w'.
Proof. intros (Es & El & _) H. unfold session_marked. by rewrite Es, El. Qed.

Lemma session_marked_reads w :
  session_marked w -> hasSubscribedThisSession w = (Normal true, w).
Proof.
  intros [(m & Es & Em) _]. unfold hasSubscribedThisSession, getItem.
  rewrite bind_eq. cbn [storage]. by rewrite Es, Em.
Qed.

Lemma session_marked_hides w :
  session_marked w -> shouldShowForm w = (Normal false, w).
Proof.
  intros H. unfold shouldShowForm. by rewrite bind_eq, session_marked_reads.
Qed.

Lemma perform_keeps_mark a w :
  a <> CallClearSessionSubscription ->
  session_marked w ->
  exists w', perform a w = (Normal tt, w') /\ session_marked w'.
Proof.
  intros Ha Hw. pose proof Hw as [(m & Es & Em) [l El]].
  destruct a as [ | | | | | | | | email url options | t ]; cbn [perform];
    try done.
  - exists w. by rewrite bind_eq, session_marked_reads.
  - eexists. unfold markSubscribedThisSession, setItem. cbn [storage].
    rewrite Es. split; [reflexivity |]. split; [| by exists l].
    eexists. split; [reflexivity | apply lookup_insert_eq].
  - exists w. unfold hasUserDismissedPermanently, getItem.
    rewrite !bind_eq. cbn [storage]. by rewrite El.
  - unfold dismissNewsletter, setItem. rewrite bind_eq. cbn [storage]. rewrite El.
    match goal with
    | |- context [ ?c (set_storage Permanent ?m' w) ] =>
        assert (Hpage : page_only c) by (unfold classList_add; page_only);
        destruct (Hpage (set_storage Permanent m' w)) as (w1 & E & F)
    end.
    exists w1. split; [exact E |]. eapply session_marked_page; [exact F |].
    split; [by exists m | by eexists].
  - eexists. unfold clearDismissal, removeItem. cbn [storage]. rewrite El.
    split; [reflexivity |]. split; [by exists m | by eexists].
  - exists w. by rewrite bind_eq, session_marked_hides.
  - unfold initNewsletterForm.
    rewrite bind_eq, session_marked_hides by done. cbn [negb].
    destruct (page_only_hideNewsletterWrapper w) as (w1 & E & F).
    exists w1. split; [exact E | by eapply session_marked_page].
  - destruct (subscribeToGhost_run email url options w)
      as (result & sent & w' & E & HP & _ & Hl & _).
    exists w'. rewrite bind_eq, E. split; [done |].
    split; [| rewrite Hl; by exists l].
    remember (sessionStorage w') as s'.
    destruct HP; try (exists m; by rewrite <- Es); try congruence.
    eexists. split; [reflexivity | apply lookup_insert_eq].
  - destruct (page_only_timeout_fires t w) as (w1 & E & F).
    exists w1. split; [exact E | by eapply session_marked_page].
Qed.

Lemma perform_all_keeps_mark actions w :
  ~ In CallClearSessionSubscription actions ->
  session_marked w ->
  exists w', perform_all actions w = (Normal tt, w') /\ session_marked w'.
Proof.
  revert w. induction actions as [| a rest IH]; intros w Hnot Hw.
  - by exists w.
  - destruct (perform_keeps_mark a w) as (w1 & E1 & H1); [| done |].
    { intros ->. apply Hnot. by left. }
    destruct (IH w1) as (w2 & E2 & H2); [| done |].
    { intros Hin. apply Hnot. by right. }
    exists w2. cbn [perform_all]. by rewrite bind_eq, E1.
Qed.

(** C8.  Round trip of the session flag.  Once [markSubscribedThisSession]
    has run, [shouldShowForm] answers false at every later check, whatever
    the page does in between (calls of the script's functions, timers), as
    long as [clearSessionSubscription] is not called; once it is called,
    [shouldShowForm] answers true again, the permanent-dismissal flag being
    false.  Both storage areas are there to be used. *)
Theorem session_flag_round_trip w actions :
  is_Some (sessionStorage w) -> is_Some (localStorage w) ->
  ~ In CallClearSessionSubscription actions ->
  exists w1 w2 w3,
    markSubscribedThisSession w = (Normal tt, w1) /\
    perform_all actions w1 = (Normal tt, w2) /\
    shouldShowForm w1 = (Normal false, w1) /\
    shouldShowForm w2 = (Normal false, w2) /\
    clearSessionSubscription w2 = (Normal tt, w3) /\
    ((hasUserDismissedPermanently w3).1 = Normal false ->
     shouldShowForm w3 = (Normal true, w3)).
Proof.
  intros [m Es] [l El] Hnot.
  assert (H1 : session_marked
                 (set_storage Session (<[NEWSLETTER_SESSION_KEY := "true"]> m) w)).
  { split; [| by exists l]. eexists. split; [reflexivity | apply lookup_insert_eq]. }
  destruct (perform_all_keeps_mark actions _ Hnot H1) as (w2 & E2 & H2).
  pose proof H2 as [(m2 & Es2 & Em2) [l2 El2]].
  eexists _, w2, _. repeat apply conj.
  - unfold markSubscribedThisSession, setItem. cbn [storage]. by rewrite Es.
  - exact E2.
  - by apply session_marked_hides.
  - by apply session_marked_hides.
  - unfold clearSessionSubscription, removeItem. cbn [storage]. by rewrite Es2.
  - unfold shouldShowForm, hasUserDismissedPermanently, hasSubscribedThisSession,
      getItem. rewrite !bind_eq. cbn [storage set_storage sessionStorage localStorage].
    rewrite El2, lookup_delete_eq. cbn. intros [= Hd].
    rewrite (bool_decide_eq_false_2 (None = Some "true")) by done.
    cbn [negb]. rewrite !bind_eq. cbn. by rewrite Hd.
Qed.

Lemma session_flag_round_trip_witness :
  let w := example_world token_reply created_reply in
  exists w1 w2 w3,
    markSubscribedThisSession w = (Normal tt, w1) /\
    perform_all [CallShouldShowForm;
                 CallSubscribeToGhost "user@example.com" "https://ghost.example"
                                      no_options;
                 CallInitNewsletterForm] w1 = (Normal tt, w2) /\
    shouldShowForm w2 = (Normal false, w2) /\
    clearSessionSubscription w2 = (Normal tt, w3) /\
    shouldShowForm w3 = (Normal true, w3).
Proof.
  intros w.
  destruct (session_flag_round_trip w
              [CallShouldShowForm;
               CallSubscribeToGhost "user@example.com" "https://ghost.example"
                                    no_options;
               CallInitNewsletterForm])
    as (w1 & w2 & w3 & E1 & E2 & _ & H2 & E3 & H3).
  - by eexists.
  - by eexists.
  - intros [H | [H | [H | []]]]; discriminate H.
  - exists w1, w2, w3. repeat apply conj; try done.
    apply H3.
    assert (El : localStorage w3 = Some ∅).
    { injection E1 as <-. 
      assert (localStorage w2 = Some ∅) as Hl2
        by (revert E2; vm_compute; by intros [= <-]).
      revert E3. unfold clearSessionSubscription, removeItem. cbn [storage].
      destruct (sessionStorage w2); intros [= <-]; done. }
    unfold hasUserDismissedPermanently, getItem. rewrite bind_eq. cbn [storage].
    by rewrite El.
Defined.

Lemma element_ref_alter f id id' w :
  element_ref id (set_document (alter f id' (document w)) w) = element_ref id w.
Proof.
  unfold element_ref. cbn [document set_document].
  destruct (decide (id' = id)) as [-> | Hne].
  - rewrite lookup_alter_eq. by destruct (document w !! id).
  - by rewrite lookup_alter_ne.
Qed.

Lemma hide_twice (d : gmap string Element) id :
  alter (fun e => mkElement ({["hidden"]} ∪ classList e) (textContent e) (paragraph e))
        id
        (alter (fun e => mkElement ({["hidden"]} ∪ classList e) (textContent e)
                                   (paragraph e)) id d)
  = alter (fun e => mkElement ({["hidden"]} ∪ classList e) (textContent e)
                              (paragraph e)) id d.
Proof.
  rewrite alter_alter_eq. apply alter_ext. intros [c t p] _. cbn.
  f_equal. by rewrite (assoc_L (∪)), (idemp_L (∪)).
Qed.

(** C9.  Dismissing is idempotent.  Where the permanent storage can be
    written, [dismissNewsletter] completes, sets the permanent flag, and a
    second call completes too and leaves everything, storage included, as
    the first call left it. *)
Theorem dismissal_idempotent w :
  is_Some (localStorage w) ->
  exists w1,
    dismissNewsletter w = (Normal tt, w1) /\
    dismissNewsletter w1 = (Normal tt, w1) /\
    (exists store, localStorage w1 = Some store /\
                   store !! "newsletter_never_show" = Some "true") /\
    hasUserDismissedPermanently w1 = (Normal true, w1).
Proof.
  intros [l El].
  unfold dismissNewsletter, hasUserDismissedPermanently, setItem, getItem.
  rewrite bind_eq. cbn [storage]. rewrite El, bind_getElementById.
  unfold element_ref. cbn [document set_storage].
  destruct (document w !! "subscription-form-wrapper") as [wrapper |] eqn:Hw.
  - eexists. split; [reflexivity |]. cbn.
    unfold element_ref. cbn. rewrite lookup_alter_eq, Hw. cbn.
    unfold classList_add, update_element, set_document, ret. cbn.
    rewrite insert_insert_eq, lookup_insert_eq, hide_twice.
    repeat split. eexists. split; [reflexivity | apply lookup_insert_eq].
  - eexists. split; [reflexivity |]. cbn.
    unfold element_ref. cbn. rewrite Hw. cbn. unfold ret.
    rewrite insert_insert_eq, lookup_insert_eq.
    repeat split. eexists. split; [reflexivity | apply lookup_insert_eq].
Qed.

Lemma dismissal_idempotent_witness :
  exists w1,
    dismissNewsletter (example_world token_reply created_reply) = (Normal tt, w1) /\
    dismissNewsletter w1 = (Normal tt, w1) /\
    (exists store, localStorage w1 = Some store /\
                   store !! "newsletter_never_show" = Some "true") /\
    hasUserDismissedPermanently w1 = (Normal true, w1).
Proof.
  apply (dismissal_idempotent (example_world token_reply created_reply)).
  by eexists.
Defined.

(** C10.  The two flags are independent, from every starting state.
    [markSubscribedThisSession] and [clearSessionSubscription] leave the
    permanent storage, hence the permanent-dismissal flag, as it was and
    touch no session key but [newsletter_subscribed_session];
    [dismissNewsletter] and [clearDismissal] leave the session storage,
    hence the session flag, as it was and touch no permanent key but
    [newsletter_never_show]. *)
Theorem flags_independent w :
  session_key_only markSubscribedThisSession w /\
  session_key_only clearSessionSubscription w /\
  permanent_key_only dismissNewsletter w /\
  permanent_key_only clearDismissal w.
Proof.
  unfold session_key_only, permanent_key_only.
  split; [| split; [| split]].
  - unfold markSubscribedThisSession, setItem. cbn [storage].
    destruct (sessionStorage w) as [m |] eqn:Es; cbn [snd].
    + split; [done | split].
      * by apply hasUserDismissedPermanently_reads.
      * intros k Hk. unfold stored. cbn. rewrite Es.
        by rewrite lookup_insert_ne.
    + by repeat apply conj.
  - unfold clearSessionSubscription, removeItem. cbn [storage].
    destruct (sessionStorage w) as [m |] eqn:Es; cbn [snd].
    + split; [done | split].
      * by apply hasUserDismissedPermanently_reads.
      * intros k Hk. unfold stored. cbn. rewrite Es.
        by rewrite lookup_delete_ne.
    + by repeat apply conj.
  - unfold dismissNewsletter, setItem. rewrite bind_eq. cbn [storage].
    destruct (localStorage w) as [l |] eqn:El.
    + match goal with
      | |- context [ ?c (set_storage Permanent ?m' w) ] =>
          assert (Hpage : page_only c) by (unfold classList_add; page_only);
          destruct (Hpage (set_storage Permanent m' w)) as (w1 & E & (Fs & Fl & _));
          rewrite E; clear Hpage E
      end.
      cbn [snd]. split; [by rewrite Fs | split].
      * apply hasSubscribedThisSession_reads. by rewrite Fs.
      * intros k Hk. unfold stored. cbn [storage]. rewrite Fl, El. cbn.
        by rewrite lookup_insert_ne.
    + cbn [snd]. by repeat apply conj.
  - unfold clearDismissal, removeItem. cbn [storage].
    destruct (localStorage w) as [l |] eqn:El; cbn [snd].
    + split; [done | split].
      * by apply hasSubscribedThisSession_reads.
      * intros k Hk. unfold stored. cbn. rewrite El.
        by rewrite lookup_delete_ne.
    + by repeat apply conj.
Qed.

(** *** The revisions agree on what they return *)


Lemma page_only_Previous_show_error e m : page_only (Previous.show_error e m).
Proof.
  unfold Previous.show_error, set_textContent, classList_remove. page_only.
Qed.





(** ** What the script does to the page *)

Lemma if_element_update f el w :
  if_element el (update_element f) w = (Normal tt, on_element f el w).
Proof. by destruct el. Qed.

Lemma seq_if_element {A} f el (k : Js A) w :
  (if_element el (update_element f) ;;; k) w = k (on_element f el w).
Proof. by rewrite bind_eq, if_element_update. Qed.

Lemma showTemporaryMessage_run el callback w :
  showTemporaryMessage el callback w = (Normal tt, message_displayed el callback w).
Proof.
  unfold showTemporaryMessage, classList_remove. by rewrite seq_if_element.
Qed.

Lemma show_error_run e f d m w :
  show_error e f d m w = (Normal tt, error_displayed e f d m w).
Proof.
  unfold show_error, error_displayed. destruct e as [id |]; [| done].
  cbn [if_element]. unfold set_paragraph_text, classList_add.
  rewrite bind_eq. cbn [update_element].
  change (set_document (alter ?f id (document w)) w) with (on_element f (Some id) w).
  by rewrite !seq_if_element, showTemporaryMessage_run.
Qed.

Lemma hideNewsletterWrapper_run w :
  hideNewsletterWrapper w
  = (Normal tt,
     on_element (with_class "hidden") (element_ref "subscription-form-wrapper" w) w).
Proof.
  unfold hideNewsletterWrapper, classList_add.
  by rewrite bind_getElementById, if_element_update.
Qed.

Lemma timeout_fires_run t w : timeout_fires t w = (Normal tt, timer_done t w).
Proof.
  unfold timeout_fires, timer_done, run_callback, classList_add, classList_remove.
  rewrite seq_if_element.
  destruct (timer_callback t) as [| | form dismiss].
  - done.
  - apply hideNewsletterWrapper_run.
  - by rewrite seq_if_element, if_element_update.
Qed.

Lemma same_page_refl w : same_page w w.
Proof. by split. Qed.

(** The catch block, from a world that shows the page the run started
    with. *)
Lemma catch_block_world e f d w :
  (show_error e f d (VStr NETWORK_ERROR) ;;; ret (failed (VStr NETWORK_ERROR))) w
  = (Normal (failed (VStr NETWORK_ERROR)), error_displayed e f d (VStr NETWORK_ERROR) w).
Proof. by rewrite bind_eq, show_error_run. Qed.

(** Where a run leaves the page, by the way it ends: [w0] is the world the
    run started in, up to what it stored and logged. *)
Lemma subscribeToGhost_display email url options w :
  exists result w0,
    same_page w w0 /\
    subscribeToGhost email url options w
    = (Normal result,
       if String.eqb email "" || negb (includes "@" email) then
         refusal_displayed (element_ref "subscription-error" w) w0
       else if success result then
         success_displayed (element_ref "subscription-mail-sent" w)
                           (element_ref "subscription-error" w)
                           (element_ref "subscription-form" w)
                           (element_ref "dismiss-newsletter" w) w0
       else
         error_displayed (element_ref "subscription-error" w)
                         (element_ref "subscription-form" w)
                         (element_ref "dismiss-newsletter" w)
                         (default VUndefined (error result)) w0).
Proof.
  unfold subscribeToGhost.
  repeat (rewrite bind_getElementById; cbv beta).
  generalize (element_ref "subscription-error" w),
             (element_ref "subscription-form" w),
             (element_ref "dismiss-newsletter" w),
             (element_ref "subscription-mail-sent" w).
  intros errorElement subscriptionFormElement dismissElement emailSentElement.
  destruct (String.eqb email "" || negb (includes "@" email)) eqn:Hvalid.
  { exists (failed (VStr INVALID_EMAIL)), w. split; [apply same_page_refl |].
    rewrite bind_eq. unfold refusal_displayed. destruct errorElement as [id |]; [| done].
    cbn [if_element]. unfold set_paragraph_text. rewrite bind_eq. cbn [update_element].
    by rewrite showTemporaryMessage_run. }
  assert (Hcatch : forall w1, same_page w w1 ->
    exists result w0,
      same_page w w0 /\
      (show_error errorElement subscriptionFormElement dismissElement
                  (VStr NETWORK_ERROR) ;;;
       ret (failed (VStr NETWORK_ERROR))) w1
      = (Normal result,
         if success result then
           success_displayed emailSentElement errorElement subscriptionFormElement
                             dismissElement w0
         else
           error_displayed errorElement subscriptionFormElement dismissElement
                           (default VUndefined (error result)) w0)).
  { intros w1 Hw1. exists (failed (VStr NETWORK_ERROR)), w1.
    split; [done | apply catch_block_world]. }
  rewrite try_catch_eq, bind_eq, getIntegrityToken_run.
  destruct (token_answer w url) as [| r]; [by apply Hcatch |].
  destruct (ok r); [| by apply Hcatch].
  destruct (text_body r) as [token |]; [| by apply Hcatch].
  rewrite bind_eq. unfold fetch. cbn [server network_log log_event].
  match goal with
  | |- context [ match ?o with NoResponse => _ | Responded _ => _ end ] =>
      destruct o as [| r']
  end; [by apply Hcatch |].
  destruct (status r' =? 201).
  - rewrite bind_eq. unfold markSubscribedThisSession, setItem.
    cbn [storage sessionStorage log_event].
    destruct (sessionStorage w) as [m |]; [| by apply Hcatch].
    unfold classList_add. rewrite !seq_if_element, bind_eq, showTemporaryMessage_run.
    eexists (succeeded SUCCESS_MESSAGE), _. split; [| reflexivity]. done.
  - rewrite bind_eq, error_data_run, bind_eq. unfold lift.
    destruct (error_message_of (error_data r')) as [errorMessage | e];
      [| by apply Hcatch].
    rewrite bind_eq, show_error_run.
    eexists (failed errorMessage), _. split; [| reflexivity]. done.
Qed.

Lemma same_elements_refl w : same_elements w w.
Proof. reflexivity. Qed.

Lemma same_elements_of_page w w0 : same_page w w0 -> same_elements w w0.
Proof. intros [E _]. unfold same_elements. by rewrite E. Qed.

Lemma same_elements_on_element f el w w0 :
  same_elements w w0 -> same_elements w (on_element f el w0).
Proof.
  intros H. destruct el as [id |]; [| done].
  unfold same_elements. cbn. by rewrite dom_alter_L.
Qed.

Lemma same_elements_add_timer t w w0 :
  same_elements w w0 -> same_elements w (add_timer t w0).
Proof. done. Qed.

Lemma timers_on_element f el w : timers (on_element f el w) = timers w.
Proof. by destruct el. Qed.

Lemma element_ref_cases id w :
  (element_ref id w = Some id /\ is_Some (document w !! id)) \/
  (element_ref id w = None /\ document w !! id = None).
Proof.
  unfold element_ref. destruct (document w !! id); [left | right]; eauto.
Qed.

(** An element found in [w] and changed later, in a world with the same
    elements: the element under that id is changed, no other is. *)
Lemma lookup_on_ref f id' id w w0 :
  same_elements w w0 ->
  document (on_element f (element_ref id' w) w0) !! id
  = if decide (id' = id) then f <$> document w0 !! id else document w0 !! id.
Proof.
  intros Hsame.
  destruct (element_ref_cases id' w) as [[-> _] | [-> Hnone]]; cbn.
  - rewrite lookup_alter. by case_decide; subst.
  - case_decide; [subst | done].
    assert (document w0 !! id = None) as ->; [| done].
    apply not_elem_of_dom. rewrite Hsame. by apply not_elem_of_dom.
Qed.

Lemma element_ref_same w w0 id :
  same_elements w w0 -> element_ref id w0 = element_ref id w.
Proof.
  intros Hsame. unfold element_ref.
  destruct (document w !! id) eqn:E.
  - assert (is_Some (document w0 !! id)) as [? ->]; [| done].
    apply elem_of_dom. rewrite Hsame. by apply elem_of_dom.
  - assert (document w0 !! id = None) as ->; [| done].
    apply not_elem_of_dom. rewrite Hsame. by apply not_elem_of_dom.
Qed.

Lemma lookup_on_some f id' id w :
  document (on_element f (Some id') w) !! id
  = if decide (id' = id) then f <$> document w !! id else document w !! id.
Proof. cbn. rewrite lookup_alter. by case_decide; subst. Qed.

(** Rewriting the lookups of a page described by [on_element]. *)
Ltac same_elements :=
  repeat first
    [ assumption
    | apply same_elements_refl
    | apply same_elements_add_timer
    | apply same_elements_on_element
    | apply same_elements_of_page; assumption ].

Ltac page_lookup :=
  repeat first
    [ rewrite lookup_on_ref by same_elements
    | rewrite lookup_on_some
    | rewrite decide_True by reflexivity
    | rewrite decide_False by discriminate
    | progress cbn [document add_timer] ].

Lemma hide_after_show (c : string) (cs : gset string) :
  {[c]} ∪ (cs ∖ {[c]}) = {[c]} ∪ cs.
Proof.
  apply set_eq. intros x. rewrite !elem_of_union, elem_of_difference.
  destruct (decide (x ∈ ({[c]} : gset string))); tauto.
Qed.

Lemma show_after_hide (c : string) (cs : gset string) :
  ({[c]} ∪ cs) ∖ {[c]} = cs ∖ {[c]}.
Proof.
  apply set_eq. intros x. rewrite !elem_of_difference, elem_of_union. tauto.
Qed.

Ltac page_classes w :=
  repeat match goal with
         | |- context [ document w !! ?id ] =>
             destruct (document w !! id) as [[? ? ?] |]
         end;
  cbn; rewrite ?hide_after_show, ?show_after_hide; try reflexivity.

(** X5.  The page after an accepted subscription: the form, the dismiss link
    and the error element are hidden, the success message is shown, and
    one timer is added which, when it runs, hides the success message and
    the whole wrapper. *)
Theorem accepted_display email url options w r :
  let run := subscribeToGhost email url options w in
  run.1 = Normal r -> success r = true ->
  let t := mkTimer 5000 (element_ref "subscription-mail-sent" w) HideWrapper in
  classes_of "subscription-form" run.2
    = (fun cs => {["hidden"]} ∪ cs) <$> classes_of "subscription-form" w /\
  classes_of "dismiss-newsletter" run.2
    = (fun cs => {["hidden"]} ∪ cs) <$> classes_of "dismiss-newsletter" w /\
  classes_of "subscription-error" run.2
    = (fun cs => {["hidden"]} ∪ cs) <$> classes_of "subscription-error" w /\
  classes_of "subscription-mail-sent" run.2
    = (fun cs => cs ∖ {["hidden"]}) <$> classes_of "subscription-mail-sent" w /\
  classes_of "subscription-form-wrapper" run.2
    = classes_of "subscription-form-wrapper" w /\
  timers run.2 = timers w ++ [t] /\
  classes_of "subscription-mail-sent" (timeout_fires t run.2).2
    = (fun cs => {["hidden"]} ∪ cs) <$> classes_of "subscription-mail-sent" w /\
  classes_of "subscription-form-wrapper" (timeout_fires t run.2).2
    = (fun cs => {["hidden"]} ∪ cs) <$> classes_of "subscription-form-wrapper" w.
Proof.
  intros run Hr Hs t. subst run t.
  destruct (subscribeToGhost_display email url options w)
    as (result & w0 & [Hd Ht] & E).
  rewrite E in Hr |- *. cbn [fst snd] in *. injection Hr as ->.
  destruct (String.eqb email "" || negb (includes "@" email)) eqn:Hv.
  { exfalso. destruct (subscribeToGhost_path email url options w) as (r' & E' & HP & _).
    rewrite E in E'. injection E' as <-. destruct HP; try congruence.
    discriminate Hs. }
  rewrite Hs. rewrite timeout_fires_run. cbn [snd].
  assert (Hsame : same_elements w w0) by (unfold same_elements; by rewrite Hd).
  unfold classes_of, success_displayed, message_displayed, timer_done.
  cbn [timer_message timer_callback document add_timer timers].
  rewrite !timers_on_element, Ht.
  repeat apply conj; try done;
    rewrite ?(element_ref_same w) by same_elements;
    page_lookup; rewrite ?Hd; page_classes w.
Qed.

Lemma accepted_display_witness :
  let w := example_world token_reply created_reply in
  let run := subscribeToGhost "user@example.com" "https://ghost.example" no_options w in
  classes_of "subscription-form" run.2
    = (fun cs => {["hidden"]} ∪ cs) <$> classes_of "subscription-form" w /\
  timers run.2
    = timers w ++ [mkTimer 5000 (element_ref "subscription-mail-sent" w) HideWrapper].
Proof.
  intros w run.
  destruct (accepted_display "user@example.com" "https://ghost.example" no_options w
              (succeeded SUCCESS_MESSAGE))
    as (Hform & _ & _ & _ & _ & Htimers & _);
    [vm_compute; reflexivity | reflexivity |].
  split; assumption.
Defined.

Lemma valid_of_contains_at email :
  contains_at email -> String.eqb email "" || negb (includes "@" email) = false.
Proof.
  intros H. apply includes_contains_at in H as Hin. rewrite Hin.
  destruct email; [destruct H | done].
Qed.

(** The result and the page of a run whose address passed validation and
    which did not succeed. *)
Lemma failed_run_display email url options w r e :
  contains_at email ->
  (subscribeToGhost email url options w).1 = Normal r ->
  success r = false -> error r = Some e ->
  exists w0,
    same_page w w0 /\
    (subscribeToGhost email url options w).2
    = error_displayed (element_ref "subscription-error" w)
                      (element_ref "subscription-form" w)
                      (element_ref "dismiss-newsletter" w) e w0.
Proof.
  intros Hat Hr Hs He. apply valid_of_contains_at in Hat.
  destruct (subscribeToGhost_display email url options w)
    as (result & w0 & Hpage & E).
  rewrite E in Hr |- *. cbn [fst snd] in *. injection Hr as ->.
  exists w0. split; [done |]. by rewrite Hat, Hs, He.
Qed.

(** X6.  The page after a failed attempt (the address had an [@]; the token or
    the subscription request failed or was rejected), when the page has an
    error element: its paragraph carries the returned error, it is shown,
    the form and the dismiss link are hidden, and one timer is added
    which, when it runs, hides the error and shows the form and the dismiss
    link again.  The success message and the wrapper are not touched. *)
Theorem failure_display email url options w r e :
  let run := subscribeToGhost email url options w in
  contains_at email ->
  run.1 = Normal r -> success r = false -> error r = Some e ->
  is_Some (document w !! "subscription-error") ->
  let t := mkTimer 5000 (Some "subscription-error")
             (ShowFormAgain (element_ref "subscription-form" w)
                            (element_ref "dismiss-newsletter" w)) in
  paragraph_of "subscription-error" run.2
    = (fun _ => e) <$> paragraph_of "subscription-error" w /\
  classes_of "subscription-error" run.2
    = (fun cs => cs ∖ {["hidden"]}) <$> classes_of "subscription-error" w /\
  classes_of "subscription-form" run.2
    = (fun cs => {["hidden"]} ∪ cs) <$> classes_of "subscription-form" w /\
  classes_of "dismiss-newsletter" run.2
    = (fun cs => {["hidden"]} ∪ cs) <$> classes_of "dismiss-newsletter" w /\
  classes_of "subscription-mail-sent" run.2 = classes_of "subscription-mail-sent" w /\
  classes_of "subscription-form-wrapper" run.2
    = classes_of "subscription-form-wrapper" w /\
  timers run.2 = timers w ++ [t] /\
  classes_of "subscription-error" (timeout_fires t run.2).2
    = (fun cs => {["hidden"]} ∪ cs) <$> classes_of "subscription-error" w /\
  classes_of "subscription-form" (timeout_fires t run.2).2
    = (fun cs => cs ∖ {["hidden"]}) <$> classes_of "subscription-form" w /\
  classes_of "dismiss-newsletter" (timeout_fires t run.2).2
    = (fun cs => cs ∖ {["hidden"]}) <$> classes_of "dismiss-newsletter" w.
Proof.
  intros run Hat Hr Hs He [el Hel] t. subst run t.
  destruct (failed_run_display email url options w r e Hat Hr Hs He)
    as (w0 & [Hd Ht] & ->).
  rewrite timeout_fires_run. cbn [snd].
  assert (Hsame : same_elements w w0) by (unfold same_elements; by rewrite Hd).
  assert (Href : element_ref "subscription-error" w = Some "subscription-error")
    by (unfold element_ref; by rewrite Hel).
  rewrite Href.
  unfold classes_of, paragraph_of, error_displayed, message_displayed, timer_done.
  cbn [timer_message timer_callback document add_timer timers].
  rewrite !timers_on_element, Ht.
  repeat apply conj; try done; page_lookup; rewrite ?Hd; page_classes w.
Qed.

Lemma failure_display_witness :
  let w := example_world token_reply (rejected_reply (Some member_exists_body)) in
  let run := subscribeToGhost "user@example.com" "https://ghost.example" no_options w in
  let t := mkTimer 5000 (Some "subscription-error")
             (ShowFormAgain (element_ref "subscription-form" w)
                            (element_ref "dismiss-newsletter" w)) in
  paragraph_of "subscription-error" run.2
    = (fun _ => VStr "Member already exists") <$> paragraph_of "subscription-error" w /\
  classes_of "subscription-form" (timeout_fires t run.2).2
    = (fun cs => cs ∖ {["hidden"]}) <$> classes_of "subscription-form" w.
Proof.
  intros w run t.
  destruct (failure_display "user@example.com" "https://ghost.example" no_options w
              (failed (VStr "Member already exists")) (VStr "Member already exists"))
    as (Hp & _ & _ & _ & _ & _ & _ & _ & Hform & _).
  - unfold contains_at. cbn. do 4 right. by left.
  - vm_compute. reflexivity.
  - reflexivity.
  - reflexivity.
  - by eexists.
  - split; assumption.
Defined.

(** X7.  The page after an address is refused, when the page has an error
    element: its paragraph carries "Please enter a valid email address",
    it is shown, and one timer is added which, when it runs, hides it
    again; no other element changes, so the form stays as it was. *)
Theorem refusal_display email url options w :
  let run := subscribeToGhost email url options w in
  ~ contains_at email ->
  is_Some (document w !! "subscription-error") ->
  let t := mkTimer 5000 (Some "subscription-error") NoCallback in
  paragraph_of "subscription-error" run.2
    = (fun _ => VStr "Please enter a valid email address")
        <$> paragraph_of "subscription-error" w /\
  classes_of "subscription-error" run.2
    = (fun cs => cs ∖ {["hidden"]}) <$> classes_of "subscription-error" w /\
  timers run.2 = timers w ++ [t] /\
  classes_of "subscription-error" (timeout_fires t run.2).2
    = (fun cs => {["hidden"]} ∪ cs) <$> classes_of "subscription-error" w /\
  (forall id, id <> "subscription-error" ->
     document run.2 !! id = document w !! id /\
     document (timeout_fires t run.2).2 !! id = document w !! id).
Proof.
  intros run Hat [el Hel] t. subst run t. apply refused_without_at in Hat.
  destruct (subscribeToGhost_display email url options w)
    as (result & w0 & [Hd Ht] & E).
  rewrite E, Hat. cbn [snd]. rewrite timeout_fires_run. cbn [snd].
  assert (Href : element_ref "subscription-error" w = Some "subscription-error")
    by (unfold element_ref; by rewrite Hel).
  rewrite Href.
  unfold classes_of, paragraph_of, refusal_displayed, message_displayed, timer_done.
  cbn [timer_message timer_callback document add_timer timers].
  rewrite !timers_on_element, Ht.
  repeat apply conj; try done;
    [page_lookup; rewrite ?Hd; page_classes w .. |].
  intros id Hid. page_lookup. rewrite !decide_False by done. by rewrite Hd.
Qed.

Lemma refusal_display_witness :
  let w := example_world token_reply created_reply in
  let run := subscribeToGhost "user.example.com" "https://ghost.example" no_options w in
  paragraph_of "subscription-error" run.2
    = (fun _ => VStr "Please enter a valid email address")
        <$> paragraph_of "subscription-error" w /\
  document run.2 !! "subscription-form" = document w !! "subscription-form".
Proof.
  intros w run.
  destruct (refusal_display "user.example.com" "https://ghost.example" no_options w)
    as (Hp & _ & _ & _ & Hother).
  - unfold contains_at. cbn. intros H.
    repeat (destruct H as [H | H]; [discriminate H |]). exact H.
  - by eexists.
  - split; [exact Hp |]. by apply Hother.
Defined.

(** X8.  Without an error element the script has nowhere to report a failure:
    a run that does not succeed leaves the page, its elements and its
    timers, exactly as it was, the form included. *)
Theorem failure_not_displayed email url options w r :
  let run := subscribeToGhost email url options w in
  run.1 = Normal r -> success r = false ->
  document w !! "subscription-error" = None ->
  document run.2 = document w /\ timers run.2 = timers w.
Proof.
  intros run Hr Hs Hnone. subst run.
  destruct (subscribeToGhost_display email url options w)
    as (result & w0 & [Hd Ht] & E).
  rewrite E in Hr |- *. cbn [fst snd] in *. injection Hr as ->.
  assert (Href : element_ref "subscription-error" w = None)
    by (unfold element_ref; by rewrite Hnone).
  rewrite Hs, Href. by destruct (_ || _).
Qed.

Lemma failure_not_displayed_witness :
  let w := mkWorld (Some ∅) (Some ∅) ∅ [] (example_server NoResponse NoResponse) [] in
  let run := subscribeToGhost "user@example.com" "https://ghost.example" no_options w in
  document run.2 = document w /\ timers run.2 = timers w.
Proof.
  intros w run.
  apply (failure_not_displayed "user@example.com" "https://ghost.example" no_options w
           (failed (VStr NETWORK_ERROR))); [vm_compute | |]; reflexivity.
Defined.

(** ** What a run sends and stores *)

Lemma ok_bounds r : ok r = true <-> 200 <= status r <= 299.
Proof. unfold ok. rewrite andb_true_iff, !Z.leb_le. tauto. Qed.

(** X1.  The requests of a run are, in this order and with nothing after them:
    none, when the address has no [@]; the token request alone, when it
    gets no answer, an answer outside 200..299 or an unreadable body; the
    token request and then one subscription request, which carries the
    address and options given and, as its token, the very text the token
    endpoint returned.  Nothing is ever sent twice. *)
Theorem requests_of_a_run email url options w :
  let sent := requests_since w (subscribeToGhost email url options w).2 in
  (sent = [] /\ ~ contains_at email)
  \/
  (exists out,
     sent = [(token_request url, out)] /\ contains_at email /\
     forall r, out = Responded r ->
       ~ (200 <= status r <= 299) \/ text_body r = None)
  \/
  (exists r token out,
     sent = [(token_request url, Responded r);
             (subscribe_request url email token options, out)] /\
     contains_at email /\
     200 <= status r <= 299 /\ text_body r = Some token).
Proof.
  intros sent. subst sent.
  destruct (subscribeToGhost_path email url options w) as (result & _ & HP & _).
  remember (requests_since w (subscribeToGhost email url options w).2) as sent.
  remember (sessionStorage (subscribeToGhost email url options w).2) as s'.
  destruct HP as [ Hv | Hv Ht | r Hv Ht Hok | r Hv Ht Hok Htx
                 | r token Hv Ht Hok Htx Ha
                 | r token r' m Hv Ht Hok Htx Ha H201 Hs
                 | r token r' Hv Ht Hok Htx Ha H201 Hs
                 | r token r' em Hv Ht Hok Htx Ha H201 Hm
                 | r token r' e Hv Ht Hok Htx Ha H201 Hm ].
  - left. split; [done |]. intros Hat. apply valid_of_contains_at in Hat. congruence.
  - right; left. eexists. repeat split; [by apply contains_at_of_valid | done].
  - right; left. eexists. repeat split; [by apply contains_at_of_valid |].
    intros ? [= <-]. left. rewrite <- ok_bounds. congruence.
  - right; left. eexists. repeat split; [by apply contains_at_of_valid |].
    intros ? [= <-]. by right.
  - right; right. exists r, token. eexists.
    repeat split; try done; [by apply contains_at_of_valid | by apply ok_bounds..].
  - right; right. exists r, token. eexists.
    repeat split; try done; [by apply contains_at_of_valid | by apply ok_bounds..].
  - right; right. exists r, token. eexists.
    repeat split; try done; [by apply contains_at_of_valid | by apply ok_bounds..].
  - right; right. exists r, token. eexists.
    repeat split; try done; [by apply contains_at_of_valid | by apply ok_bounds..].
  - right; right. exists r, token. eexists.
    repeat split; try done; [by apply contains_at_of_valid | by apply ok_bounds..].
Qed.

(** X2.  When the token endpoint answers with a status outside 200..299, or
    with a body that cannot be read, the run returns the network-error
    result, sends no subscription request and stores nothing. *)
Theorem token_refused email url options w r :
  let run := subscribeToGhost email url options w in
  In (token_request url, Responded r) (requests_since w run.2) ->
  ~ (200 <= status r <= 299) \/ text_body r = None ->
  run.1 = Normal (mkResult false None
             (Some (VStr "Network error. Please check your connection and try again."))) /\
  requests_since w run.2 = [(token_request url, Responded r)] /\
  sessionStorage run.2 = sessionStorage w /\
  localStorage run.2 = localStorage w.
Proof.
  intros run Hin Hbad. subst run.
  destruct (subscribeToGhost_path email url options w)
    as (result & E & HP & Hl & _).
  rewrite E, Hl. clear E Hl.
  remember (requests_since w (subscribeToGhost email url options w).2) as sent.
  remember (sessionStorage (subscribeToGhost email url options w).2) as s'.
  destruct HP as [ Hv | Hv Ht | r0 Hv Ht Hok | r0 Hv Ht Hok Htx
                 | r0 token Hv Ht Hok Htx Ha
                 | r0 token r' m Hv Ht Hok Htx Ha H201 Hs
                 | r0 token r' Hv Ht Hok Htx Ha H201 Hs
                 | r0 token r' em Hv Ht Hok Htx Ha H201 Hm
                 | r0 token r' e Hv Ht Hok Htx Ha H201 Hm ].
  - destruct Hin.
  - apply event_in_one in Hin. discriminate Hin.
  - apply event_in_one in Hin. by injection Hin as <-.
  - apply event_in_one in Hin. by injection Hin as <-.
  - exfalso. apply event_in_two in Hin as [Hin | Hin]; [| by inversion Hin].
    injection Hin as <-. apply ok_bounds in Hok. destruct Hbad; [tauto | congruence].
  - exfalso. apply event_in_two in Hin as [Hin | Hin]; [| by inversion Hin].
    injection Hin as <-. apply ok_bounds in Hok. destruct Hbad; [tauto | congruence].
  - exfalso. apply event_in_two in Hin as [Hin | Hin]; [| by inversion Hin].
    injection Hin as <-. apply ok_bounds in Hok. destruct Hbad; [tauto | congruence].
  - exfalso. apply event_in_two in Hin as [Hin | Hin]; [| by inversion Hin].
    injection Hin as <-. apply ok_bounds in Hok. destruct Hbad; [tauto | congruence].
  - exfalso. apply event_in_two in Hin as [Hin | Hin]; [| by inversion Hin].
    injection Hin as <-. apply ok_bounds in Hok. destruct Hbad; [tauto | congruence].
Qed.

Lemma token_refused_witness :
  let w := example_world (Responded (mkResponse 503 (Some "unavailable") None))
                         created_reply in
  let run := subscribeToGhost "user@example.com" "https://ghost.example" no_options w in
  run.1 = Normal (mkResult false None
             (Some (VStr "Network error. Please check your connection and try again."))) /\
  requests_since w run.2
  = [(token_request "https://ghost.example",
      Responded (mkResponse 503 (Some "unavailable") None))].
Proof.
  intros w run.
  destruct (token_refused "user@example.com" "https://ghost.example" no_options w
              (mkResponse 503 (Some "unavailable") None))
    as (Hr & Hsent & _).
  - vm_compute. by left.
  - left. cbn. lia.
  - split; assumption.
Defined.

(** X3.  A run writes to storage in one case only.  It never touches the
    permanent storage; it leaves the session storage as it was whenever it
    does not succeed; and when it succeeds, the session storage it found
    has gained ["true"] under [newsletter_subscribed_session] and nothing
    else. *)
Theorem storage_after_a_run email url options w :
  let run := subscribeToGhost email url options w in
  exists r,
    run.1 = Normal r /\
    localStorage run.2 = localStorage w /\
    (success r = false -> sessionStorage run.2 = sessionStorage w) /\
    (success r = true ->
     exists m, sessionStorage w = Some m /\
               sessionStorage run.2
               = Some (<["newsletter_subscribed_session" := "true"]> m)).
Proof.
  intros run. subst run.
  destruct (subscribeToGhost_path email url options w)
    as (result & E & HP & Hl & _).
  exists result. split; [done | split; [done |]].
  remember (requests_since w (subscribeToGhost email url options w).2) as sent.
  remember (sessionStorage (subscribeToGhost email url options w).2) as s'.
  destruct HP; split; intros Hs; try done; try discriminate Hs; eauto.
Qed.

(** ** The token *)

(** X4.  [getIntegrityToken] sends exactly one request, the GET with the two
    headers, and changes nothing else.  It returns a token exactly when the
    endpoint answers with a status in 200..299 and a readable body, and the
    token is that body, untouched; a status outside 200..299 is thrown
    with its code; no answer at all is thrown as it is. *)
Theorem getIntegrityToken_returns url w :
  let run := getIntegrityToken url w in
  let asked := server w (network_log w) (token_request url) in
  run.2 = log_event (token_request url, asked) w /\
  (forall token,
     run.1 = Normal token <->
     exists r, asked = Responded r /\ 200 <= status r <= 299 /\
               text_body r = Some token) /\
  (forall r, asked = Responded r -> ~ (200 <= status r <= 299) ->
     run.1 = Throw (TokenStatusError (status r))) /\
  (asked = NoResponse -> run.1 = Throw FetchFailed).
Proof.
  intros run asked. subst run asked. rewrite getIntegrityToken_run.
  unfold token_answer. cbn [fst snd].
  destruct (server w (network_log w) (token_request url)) as [| r] eqn:Ha.
  - repeat apply conj; try done.
    intros token. split; [discriminate | by intros (? & ? & _)].
  - repeat apply conj; try done.
    + intros token. split.
      * destruct (ok r) eqn:Hok; [| discriminate].
        destruct (text_body r) as [t |] eqn:Ht; [| discriminate].
        intros [= <-]. exists r. by rewrite <- ok_bounds.
      * intros (r0 & [= <-] & Hb & Ht). apply ok_bounds in Hb. by rewrite Hb, Ht.
    + intros r0 [= <-] Hb. rewrite <- ok_bounds in Hb.
      by destruct (ok r).
Qed.

(** ** The flags and the form *)

(** X9.  At page load, with both storage areas reachable: when either flag is
    stored as ["true"], [shouldShowForm] is false and [initNewsletterForm]
    hides the wrapper, leaving every other element, the storage and the
    request log as they were; otherwise (a flag missing, or
    stored with any other text) [shouldShowForm] is true and
    [initNewsletterForm] changes nothing at all. *)
Theorem initNewsletterForm_decides w s l :
  sessionStorage w = Some s -> localStorage w = Some l ->
  let subscribed := s !! "newsletter_subscribed_session" = Some "true" in
  let dismissed := l !! "newsletter_never_show" = Some "true" in
  (subscribed \/ dismissed ->
   shouldShowForm w = (Normal false, w) /\
   (initNewsletterForm w).1 = Normal tt /\
   classes_of "subscription-form-wrapper" (initNewsletterForm w).2
     = (fun cs => {["hidden"]} ∪ cs) <$> classes_of "subscription-form-wrapper" w /\
   (forall id, id <> "subscription-form-wrapper" ->
      document (initNewsletterForm w).2 !! id = document w !! id) /\
   same_but_page w (initNewsletterForm w).2) /\
  (~ subscribed /\ ~ dismissed ->
   shouldShowForm w = (Normal true, w) /\
   initNewsletterForm w = (Normal tt, w)).
Proof.
  intros Es El subscribed dismissed. subst subscribed dismissed.
  assert (Hshow : shouldShowForm w
                  = (Normal (negb (bool_decide (s !! NEWSLETTER_SESSION_KEY = Some "true"))
                             && negb (bool_decide (l !! NEWSLETTER_NEVER_SHOW_KEY
                                                   = Some "true"))), w)).
  { unfold shouldShowForm, hasSubscribedThisSession, hasUserDismissedPermanently,
      getItem. rewrite !bind_eq. cbn [storage]. rewrite Es. cbn.
    destruct (bool_decide (s !! NEWSLETTER_SESSION_KEY = Some "true")); [done |].
    cbn. rewrite !bind_eq. cbn [storage]. by rewrite El. }
  unfold initNewsletterForm. rewrite bind_eq, Hshow. split.
  - intros Hflag.
    assert (negb (bool_decide (s !! NEWSLETTER_SESSION_KEY = Some "true"))
            && negb (bool_decide (l !! NEWSLETTER_NEVER_SHOW_KEY = Some "true"))
            = false) as ->.
    { destruct Hflag as [H | H];
        rewrite (bool_decide_eq_true_2 _ H); [done | apply andb_false_r]. }
    cbn [negb]. rewrite hideNewsletterWrapper_run. cbn [fst snd].
    unfold classes_of. repeat apply conj; try done.
    + page_lookup. page_classes w.
    + intros id Hid. page_lookup. by rewrite decide_False by done.
    + by destruct (element_ref "subscription-form-wrapper" w).
    + by destruct (element_ref "subscription-form-wrapper" w).
    + by destruct (element_ref "subscription-form-wrapper" w).
    + by destruct (element_ref "subscription-form-wrapper" w).
  - intros [Hs Hd]. by rewrite !bool_decide_eq_false_2 by done.
Qed.

Lemma initNewsletterForm_decides_witness :
  let w := mkWorld (Some {["newsletter_subscribed_session" := "yes"]})
                   (Some {["newsletter_never_show" := "true"]})
                   example_page [] (example_server NoResponse NoResponse) [] in
  shouldShowForm w = (Normal false, w) /\
  classes_of "subscription-form-wrapper" (initNewsletterForm w).2
    = (fun cs => {["hidden"]} ∪ cs) <$> classes_of "subscription-form-wrapper" w.
Proof.
  intros w.
  destruct (initNewsletterForm_decides w
              {["newsletter_subscribed_session" := "yes"]}
              {["newsletter_never_show" := "true"]})
    as [Hhide _]; [reflexivity | reflexivity |].
  destruct Hhide as (Hshow & _ & Hclasses & _); [right; reflexivity |].
  split; assumption.
Defined.

(** X10.  [shouldShowForm] reads the permanent flag only when the session flag
    is not set: with the session flag set it answers false, and
    [initNewsletterForm] completes, even where the permanent storage is
    refused; with the session flag not set, the refusal is thrown. *)
Theorem shouldShowForm_short_circuit w s :
  sessionStorage w = Some s -> localStorage w = None ->
  (s !! "newsletter_subscribed_session" = Some "true" ->
   shouldShowForm w = (Normal false, w) /\ (initNewsletterForm w).1 = Normal tt) /\
  (s !! "newsletter_subscribed_session" <> Some "true" ->
   shouldShowForm w = (Throw SecurityError, w) /\
   initNewsletterForm w = (Throw SecurityError, w)).
Proof.
  intros Es El.
  assert (Hshow : forall b,
            bool_decide (s !! NEWSLETTER_SESSION_KEY = Some "true") = b ->
            shouldShowForm w = (if b then Normal false else Throw SecurityError, w)).
  { intros b Hb. unfold shouldShowForm, hasSubscribedThisSession,
      hasUserDismissedPermanently, getItem.
    rewrite !bind_eq. cbn [storage]. rewrite Es. cbn. rewrite Hb.
    destruct b; [done |]. cbn. rewrite !bind_eq. cbn [storage]. by rewrite El. }
  split; intros Hs.
  - rewrite (Hshow true) by (by apply bool_decide_eq_true_2).
    split; [done |]. unfold initNewsletterForm.
    rewrite bind_eq, (Hshow true) by (by apply bool_decide_eq_true_2).
    cbn [negb]. by rewrite hideNewsletterWrapper_run.
  - rewrite (Hshow false) by (by apply bool_decide_eq_false_2).
    split; [done |]. unfold initNewsletterForm.
    by rewrite bind_eq, (Hshow false) by (by apply bool_decide_eq_false_2).
Qed.

Lemma shouldShowForm_short_circuit_witness :
  let w := mkWorld (Some {["newsletter_subscribed_session" := "true"]}) None
                   example_page [] (example_server NoResponse NoResponse) [] in
  shouldShowForm w = (Normal false, w) /\ (initNewsletterForm w).1 = Normal tt.
Proof.
  intros w.
  destruct (shouldShowForm_short_circuit w {["newsletter_subscribed_session" := "true"]})
    as [Hset _]; [reflexivity | reflexivity |].
  by apply Hset.
Defined.

Lemma set_storage_same a m w : storage a w = Some m -> set_storage a m w = w.
Proof. destruct w, a; cbn; by intros ->. Qed.

(** X11.  Clearing the session flag when it is not stored changes nothing, and
    setting it and then clearing it brings back the very world one started
    from: the mark leaves no other trace. *)
Theorem session_flag_cleared w s :
  sessionStorage w = Some s ->
  s !! "newsletter_subscribed_session" = None ->
  clearSessionSubscription w = (Normal tt, w) /\
  (markSubscribedThisSession ;;; clearSessionSubscription) w = (Normal tt, w).
Proof.
  intros Es Hs. split.
  - unfold clearSessionSubscription, removeItem. cbn [storage]. rewrite Es.
    rewrite delete_id by done. by rewrite set_storage_same.
  - rewrite bind_eq. unfold markSubscribedThisSession, clearSessionSubscription,
      setItem, removeItem. cbn [storage]. rewrite Es. cbn.
    rewrite delete_insert_id by done. destruct w. cbn in *. by rewrite Es.
Qed.

Lemma session_flag_cleared_witness :
  let w := example_world token_reply created_reply in
  clearSessionSubscription w = (Normal tt, w) /\
  (markSubscribedThisSession ;;; clearSessionSubscription) w = (Normal tt, w).
Proof.
  apply (session_flag_cleared (example_world token_reply created_reply) ∅);
    reflexivity.
Defined.

(** X12.  Clearing the dismissal undoes the stored flag and nothing else:
    after [dismissNewsletter] and then [clearDismissal] the permanent
    storage is back to what it was (the flag was not stored before) and
    [hasUserDismissedPermanently] is false, but the wrapper stays hidden;
    [clearDismissal] never touches the page. *)
Theorem dismissal_cleared w l :
  localStorage w = Some l ->
  l !! "newsletter_never_show" = None ->
  let w' := ((dismissNewsletter ;;; clearDismissal) w).2 in
  ((dismissNewsletter ;;; clearDismissal) w).1 = Normal tt /\
  localStorage w' = Some l /\
  hasUserDismissedPermanently w' = (Normal false, w') /\
  classes_of "subscription-form-wrapper" w'
    = (fun cs => {["hidden"]} ∪ cs) <$> classes_of "subscription-form-wrapper" w /\
  (forall w1, document (clearDismissal w1).2 = document w1).
Proof.
  intros El Hl w'. subst w'.
  unfold dismissNewsletter, setItem. rewrite !bind_eq. cbn [storage]. rewrite El.
  rewrite bind_getElementById. unfold classList_add. rewrite if_element_update.
  unfold clearDismissal, removeItem.
  cbn [storage].
  assert (Hsame : forall f el w0, localStorage (on_element f el w0) = localStorage w0)
    by (by intros f [] w0).
  rewrite Hsame. cbn [localStorage set_storage fst snd].
  rewrite delete_insert_id by done.
  unfold hasUserDismissedPermanently, getItem, classes_of.
  rewrite bind_eq. cbn [storage localStorage set_storage].
  repeat apply conj; try done.
  - unfold NEWSLETTER_NEVER_SHOW_KEY. by rewrite Hl.
  - cbn [document set_storage].
    rewrite (element_ref_same w) by done.
    destruct (element_ref_cases "subscription-form-wrapper" w) as [[-> _] | [-> Hn]].
    + cbn. rewrite lookup_alter_eq. page_classes w.
    + cbn. by rewrite Hn.
  - intros w1. by destruct (localStorage w1).
Qed.

Lemma dismissal_cleared_witness :
  let w := example_world token_reply created_reply in
  let w' := ((dismissNewsletter ;;; clearDismissal) w).2 in
  localStorage w' = Some ∅ /\
  hasUserDismissedPermanently w' = (Normal false, w') /\
  classes_of "subscription-form-wrapper" w'
    = (fun cs => {["hidden"]} ∪ cs) <$> classes_of "subscription-form-wrapper" w.
Proof.
  intros w w'.
  destruct (dismissal_cleared w ∅) as (_ & Hl & Hread & Hclasses & _);
    [reflexivity | reflexivity |].
  repeat split; assumption.
Defined.

Lemma dismissal_marked_page w w' :
  same_but_page w w' -> dismissal_marked w -> dismissal_marked w'.
Proof. intros (Es & El & _) H. unfold dismissal_marked. by rewrite Es, El. Qed.

Lemma dismissal_marked_hides w :
  dismissal_marked w -> shouldShowForm w = (Normal false, w).
Proof.
  intros [(l & El & Hl) [s Es]].
  unfold shouldShowForm, hasSubscribedThisSession, hasUserDismissedPermanently, getItem.
  rewrite !bind_eq. cbn [storage]. rewrite Es. cbn.
  destruct (bool_decide (s !! NEWSLETTER_SESSION_KEY = Some "true")); [done |].
  cbn. rewrite !bind_eq. cbn [storage]. by rewrite El, Hl.
Qed.

Lemma perform_keeps_dismissal a w :
  a <> CallClearDismissal ->
  dismissal_marked w ->
  exists w', perform a w = (Normal tt, w') /\ dismissal_marked w'.
Proof.
  intros Ha Hw. pose proof Hw as [(l & El & Hl) [s Es]].
  destruct a as [ | | | | | | | | email url options | t ]; cbn [perform];
    try done.
  - exists w. unfold hasSubscribedThisSession, getItem.
    rewrite !bind_eq. cbn [storage]. by rewrite Es.
  - eexists. unfold markSubscribedThisSession, setItem. cbn [storage].
    rewrite Es. split; [reflexivity |]. split; [by exists l | by eexists].
  - exists w. unfold hasUserDismissedPermanently, getItem.
    rewrite !bind_eq. cbn [storage]. by rewrite El.
  - unfold dismissNewsletter, setItem. rewrite bind_eq. cbn [storage]. rewrite El.
    match goal with
    | |- context [ ?c (set_storage Permanent ?m' w) ] =>
        assert (Hpage : page_only c) by (unfold classList_add; page_only);
        destruct (Hpage (set_storage Permanent m' w)) as (w1 & E & F)
    end.
    exists w1. split; [exact E |]. eapply dismissal_marked_page; [exact F |].
    split; [| by exists s]. eexists. split; [reflexivity | apply lookup_insert_eq].
  - eexists. unfold clearSessionSubscription, removeItem. cbn [storage]. rewrite Es.
    split; [reflexivity |]. split; [by exists l | by eexists].
  - exists w. by rewrite bind_eq, dismissal_marked_hides.
  - unfold initNewsletterForm.
    rewrite bind_eq, dismissal_marked_hides by done. cbn [negb].
    destruct (page_only_hideNewsletterWrapper w) as (w1 & E & F).
    exists w1. split; [exact E | by eapply dismissal_marked_page].
  - destruct (subscribeToGhost_run email url options w)
      as (result & sent & w' & E & HP & _ & Hl' & _).
    exists w'. rewrite bind_eq, E. split; [done |].
    split; [rewrite Hl'; by exists l |].
    remember (sessionStorage w') as s'.
    destruct HP; try (rewrite Es; by eexists); try (by eexists); congruence.
  - destruct (page_only_timeout_fires t w) as (w1 & E & F).
    exists w1. split; [exact E | by eapply dismissal_marked_page].
Qed.

Lemma perform_all_keeps_dismissal actions w :
  ~ In CallClearDismissal actions ->
  dismissal_marked w ->
  exists w', perform_all actions w = (Normal tt, w') /\ dismissal_marked w'.
Proof.
  revert w. induction actions as [| a rest IH]; intros w Hnot Hw.
  - by exists w.
  - destruct (perform_keeps_dismissal a w) as (w1 & E1 & H1); [| done |].
    { intros ->. apply Hnot. by left. }
    destruct (IH w1) as (w2 & E2 & H2); [| done |].
    { intros Hin. apply Hnot. by right. }
    exists w2. cbn [perform_all]. by rewrite bind_eq, E1.
Qed.

(** X13.  A dismissal lasts.  Once [dismissNewsletter] has run, [shouldShowForm]
    answers false and [initNewsletterForm] hides the wrapper at every later
    page load, whatever the page does in between (subscription attempts,
    timers, marking or clearing the session flag), as long as
    [clearDismissal] is not called.  Both storage areas are there to be
    used. *)
Theorem dismissal_lasts w actions :
  is_Some (sessionStorage w) -> is_Some (localStorage w) ->
  ~ In CallClearDismissal actions ->
  exists w1 w2,
    dismissNewsletter w = (Normal tt, w1) /\
    perform_all actions w1 = (Normal tt, w2) /\
    shouldShowForm w2 = (Normal false, w2) /\
    (initNewsletterForm w2).1 = Normal tt /\
    classes_of "subscription-form-wrapper" (initNewsletterForm w2).2
      = (fun cs => {["hidden"]} ∪ cs) <$> classes_of "subscription-form-wrapper" w2.
Proof.
  intros [s Es] [l El] Hnot.
  assert (exists w1, dismissNewsletter w = (Normal tt, w1) /\ dismissal_marked w1)
    as (w1 & E1 & H1).
  { unfold dismissNewsletter, setItem. rewrite bind_eq. cbn [storage]. rewrite El.
    match goal with
    | |- context [ ?c (set_storage Permanent ?m' w) ] =>
        assert (Hpage : page_only c) by (unfold classList_add; page_only);
        destruct (Hpage (set_storage Permanent m' w)) as (w1 & E & F)
    end.
    exists w1. split; [exact E |]. eapply dismissal_marked_page; [exact F |].
    split; [| by exists s]. eexists. split; [reflexivity | apply lookup_insert_eq]. }
  destruct (perform_all_keeps_dismissal actions w1 Hnot H1) as (w2 & E2 & H2).
  exists w1, w2. repeat apply conj; try done.
  - by apply dismissal_marked_hides.
  - unfold initNewsletterForm.
    rewrite bind_eq, dismissal_marked_hides by done. cbn [negb].
    by rewrite hideNewsletterWrapper_run.
  - unfold initNewsletterForm.
    rewrite bind_eq, dismissal_marked_hides by done. cbn [negb].
    rewrite hideNewsletterWrapper_run. cbn [snd]. unfold classes_of.
    page_lookup. page_classes w2.
Qed.

Lemma dismissal_lasts_witness :
  let w := example_world token_reply created_reply in
  exists w1 w2,
    dismissNewsletter w = (Normal tt, w1) /\
    perform_all [CallSubscribeToGhost "user@example.com" "https://ghost.example"
                                      no_options;
                 CallClearSessionSubscription;
                 CallInitNewsletterForm] w1 = (Normal tt, w2) /\
    shouldShowForm w2 = (Normal false, w2).
Proof.
  intros w.
  destruct (dismissal_lasts w
              [CallSubscribeToGhost "user@example.com" "https://ghost.example"
                                    no_options;
               CallClearSessionSubscription;
               CallInitNewsletterForm])
    as (w1 & w2 & E1 & E2 & Hshow & _).
  - by eexists.
  - by eexists.
  - intros [H | [H | [H | []]]]; discriminate H.
  - by exists w1, w2.
Defined.

(** ** The earlier revisions *)


Lemma Previous_shown_frame e shown m w :
  exists w1,
    same_but_page w w1 /\
    (Previous.show_error e shown ;;; ret (failed m)) w = (Normal (failed m), w1).
Proof.
  destruct (seq_page_only (Previous.show_error e shown) (ret (failed m)) w)
    as (w1 & F & E); [apply page_only_Previous_show_error |].
  by exists w1.
Qed.

Ltac previous_shown_frame :=
  match goal with
  | |- context [ (Previous.show_error ?e ?s ;;; ret (failed ?m)) ?w0 ] =>
      let w1 := fresh "w" in
      let E := fresh "E" in
      let F := fresh "F" in
      destruct (Previous_shown_frame e s m w0) as (w1 & F & E); rewrite E; clear E;
      exists (failed m), w1; destruct F as (? & ? & _);
      split; [reflexivity |]; split; [by etrans |];
      split; [intros _; by etrans | intros [=]]
  end.

Lemma Previous_subscribeToGhost_storage email url options w :
  exists result w',
    Previous.subscribeToGhost email url options w = (Normal result, w') /\
    sessionStorage w' = sessionStorage w /\
    (success result = false -> localStorage w' = localStorage w) /\
    (success result = true ->
     exists l, localStorage w = Some l /\
               localStorage w' = Some (<[Previous.NEWSLETTER_STORAGE_KEY := "true"]> l)).
Proof.
  unfold Previous.subscribeToGhost.
  repeat (rewrite bind_getElementById; cbv beta).
  generalize (element_ref "subscription-error" w),
             (element_ref "subscription-form" w),
             (element_ref "subscription-mail-sent" w).
  intros errorElement subscriptionFormElement emailSentElement.
  destruct (String.eqb email "" || negb (includes "@" email));
    [by previous_shown_frame |].
  rewrite try_catch_eq, bind_eq, getIntegrityToken_run.
  destruct (token_answer w url) as [| r]; [by previous_shown_frame |].
  destruct (ok r); [| by previous_shown_frame].
  destruct (text_body r) as [token |]; [| by previous_shown_frame].
  rewrite bind_eq. unfold fetch. cbn [server network_log log_event].
  match goal with
  | |- context [ match ?o with NoResponse => _ | Responded _ => _ end ] =>
      destruct o as [| r']
  end; [by previous_shown_frame |].
  destruct (status r' =? 201).
  - rewrite bind_eq. unfold Previous.markUserAsSubscribed, setItem.
    cbn [storage localStorage log_event].
    destruct (localStorage w) as [l |] eqn:El; [| by previous_shown_frame].
    match goal with
    | |- context [ ?c (set_storage Permanent ?m' ?w0) ] =>
        assert (Hpage : returns_on_page c (succeeded SUCCESS_MESSAGE))
          by (unfold classList_add, classList_remove;
              destruct emailSentElement, subscriptionFormElement; returns_on_page);
        destruct (Hpage (set_storage Permanent m' w0)) as (w1 & E & (Fs & Fl & _));
        rewrite E
    end.
    exists (succeeded SUCCESS_MESSAGE), w1. rewrite Fs, Fl.
    split; [done | split; [done | split; [intros [=] |]]]. intros _. by exists l.
  - rewrite bind_eq, error_data_run, bind_eq. unfold lift.
    destruct (error_message_of (error_data r')) as [m | e]; by previous_shown_frame.
Qed.

(** X17.  The previous revision remembers a subscription in the permanent
    storage: a run never touches the session storage; when it does not
    succeed it leaves the permanent storage as it was; when it succeeds,
    the permanent storage has gained ["true"] under [newsletter_subscribed]
    and [hasUserSubscribed] answers true from then on. *)
Theorem Previous_storage_after_a_run email url options w :
  let run := Previous.subscribeToGhost email url options w in
  exists r,
    run.1 = Normal r /\
    sessionStorage run.2 = sessionStorage w /\
    (success r = false -> localStorage run.2 = localStorage w) /\
    (success r = true ->
     (exists l, localStorage w = Some l /\
                localStorage run.2 = Some (<["newsletter_subscribed" := "true"]> l)) /\
     Previous.hasUserSubscribed run.2 = (Normal true, run.2)).
Proof.
  intros run. subst run.
  destruct (Previous_subscribeToGhost_storage email url options w)
    as (result & w' & E & Hs & Hfail & Hok).
  exists result. rewrite E. cbn [fst snd].
  repeat apply conj; try done.
  intros Hsuccess. destruct (Hok Hsuccess) as (l & El & El').
  split; [by exists l |].
  unfold Previous.hasUserSubscribed, getItem. rewrite bind_eq. cbn [storage].
  by rewrite El', lookup_insert_eq.
Qed.

(** X18.  At page load the previous revision looks at its one flag: stored as
    ["true"], the form is hidden and the already-subscribed element is
    shown, and no other element changes; otherwise nothing changes at
    all. *)
Theorem Previous_initNewsletterForm_decides w l :
  localStorage w = Some l ->
  (l !! "newsletter_subscribed" = Some "true" ->
   (Previous.initNewsletterForm w).1 = Normal tt /\
   classes_of "subscription-form" (Previous.initNewsletterForm w).2
     = (fun cs => {["hidden"]} ∪ cs) <$> classes_of "subscription-form" w /\
   classes_of "already-subscribed" (Previous.initNewsletterForm w).2
     = (fun cs => cs ∖ {["hidden"]}) <$> classes_of "already-subscribed" w /\
   (forall id, id <> "subscription-form" -> id <> "already-subscribed" ->
      document (Previous.initNewsletterForm w).2 !! id = document w !! id)) /\
  (l !! "newsletter_subscribed" <> Some "true" ->
   Previous.initNewsletterForm w = (Normal tt, w)).
Proof.
  intros El. unfold Previous.initNewsletterForm, Previous.hasUserSubscribed, getItem.
  repeat (rewrite bind_getElementById; cbv beta).
  rewrite !bind_eq. cbn [storage]. rewrite El. cbn [ret].
  unfold Previous.NEWSLETTER_STORAGE_KEY. split; intros Hl.
  - rewrite bool_decide_eq_true_2 by done.
    unfold classList_add, classList_remove.
    rewrite seq_if_element, if_element_update. cbn [fst snd]. unfold classes_of.
    repeat apply conj; try done.
    + page_lookup. page_classes w.
    + page_lookup. page_classes w.
    + intros id H1 H2. page_lookup. by rewrite !decide_False by done.
  - by rewrite bool_decide_eq_false_2 by done.
Qed.

Lemma Previous_initNewsletterForm_decides_witness :
  let w := mkWorld (Some ∅) (Some {["newsletter_subscribed" := "true"]})
                   example_page [] (example_server NoResponse NoResponse) [] in
  classes_of "subscription-form" (Previous.initNewsletterForm w).2
    = (fun cs => {["hidden"]} ∪ cs) <$> classes_of "subscription-form" w.
Proof.
  intros w.
  destruct (Previous_initNewsletterForm_decides w {["newsletter_subscribed" := "true"]})
    as [Hset _]; [reflexivity |].
  destruct Hset as (_ & Hform & _); [reflexivity | exact Hform].
Defined.

Lemma Legacy_subscribeToGhost_run email url w :
  let req := Legacy.subscribe_request url email in
  let w1 := log_event (req, server w (network_log w) req) w in
  Legacy.subscribeToGhost email url w
  = (Normal VUndefined,
     match element_ref "subscription-mail-sent" w, element_ref "subscription-form" w with
     | Some sent, Some form =>
         on_element (without_class "invisible") (Some sent)
           (on_element (with_class "hidden") (Some form) w1)
     | _, _ => w1
     end).
Proof.
  intros req w1. subst req w1. unfold Legacy.subscribeToGhost.
  repeat (rewrite bind_getElementById; cbv beta).
  generalize (element_ref "subscription-mail-sent" w),
             (element_ref "subscription-form" w).
  intros emailSentElement subscriptionFormElement.
  rewrite bind_eq. unfold try_finally. rewrite try_catch_eq, bind_eq.
  unfold fetch, classList_add, classList_remove.
  destruct (server w (network_log w) (Legacy.subscribe_request url email));
    by destruct emailSentElement, subscriptionFormElement.
Qed.

(** X19.  The first revision sends its one request whatever the address (it
    checks nothing, not even for an [@]) and stores nothing.  Whether the
    request is answered or not, and whatever the answer, it then hides the
    form and reveals the sent message, provided the page has both; with
    either missing it leaves the page alone. *)
Theorem Legacy_always_reports_sent email url w :
  let run := Legacy.subscribeToGhost email url w in
  let req := Legacy.subscribe_request url email in
  requests_since w run.2 = [(req, server w (network_log w) req)] /\
  sessionStorage run.2 = sessionStorage w /\
  localStorage run.2 = localStorage w /\
  timers run.2 = timers w /\
  (is_Some (document w !! "subscription-mail-sent") ->
   is_Some (document w !! "subscription-form") ->
   classes_of "subscription-form" run.2
     = (fun cs => {["hidden"]} ∪ cs) <$> classes_of "subscription-form" w /\
   classes_of "subscription-mail-sent" run.2
     = (fun cs => cs ∖ {["invisible"]}) <$> classes_of "subscription-mail-sent" w) /\
  (document w !! "subscription-mail-sent" = None \/
   document w !! "subscription-form" = None ->
   document run.2 = document w).
Proof.
  intros run req. subst run req. rewrite Legacy_subscribeToGhost_run. cbn [snd].
  unfold element_ref.
  destruct (document w !! "subscription-mail-sent") as [sent |] eqn:Hsent;
    destruct (document w !! "subscription-form") as [form |] eqn:Hform;
    (repeat apply conj;
      [ apply requests_since_app; reflexivity | reflexivity | reflexivity | reflexivity
      | intros [? ?] [? ?]; try discriminate
      | intros [? | ?]; try discriminate; reflexivity ]).
  unfold classes_of. split; page_lookup; cbn [document log_event];
    rewrite ?Hsent, ?Hform; reflexivity.
Qed.

(** A run that succeeds leaves ["true"] under the session key. *)
Lemma storage_marked_on_success email url options w r :
  (subscribeToGhost email url options w).1 = Normal r -> success r = true ->
  exists m,
    sessionStorage (subscribeToGhost email url options w).2
    = Some (<[NEWSLETTER_SESSION_KEY := "true"]> m).
Proof.
  intros Hr Hs.
  destruct (subscribeToGhost_path email url options w) as (result & E & HP & _).
  rewrite E in Hr. injection Hr as ->.
  remember (requests_since w (subscribeToGhost email url options w).2) as sent.
  remember (sessionStorage (subscribeToGhost email url options w).2) as s'.
  destruct HP; try discriminate Hs. eauto.
Qed.

(** ** Timers are never cancelled *)

Lemma same_elements_trans w1 w2 w3 :
  same_elements w1 w2 -> same_elements w2 w3 -> same_elements w1 w3.
Proof. unfold same_elements. congruence. Qed.

Lemma same_elements_error_displayed e f d m w w0 :
  same_elements w w0 -> same_elements w (error_displayed e f d m w0).
Proof.
  intros H. unfold error_displayed, message_displayed.
  destruct e; [| done]. same_elements.
Qed.

(** X14.  A failed attempt followed by an accepted one: the timer the failed
    attempt set still runs, and when it runs after the success it shows
    the form again, although the session flag says the visitor has
    subscribed. *)
Theorem stale_timer_shows_form
    email1 url1 options1 email2 url2 options2 w r1 e1 r2 :
  let run1 := subscribeToGhost email1 url1 options1 w in
  let run2 := subscribeToGhost email2 url2 options2 run1.2 in
  let t := mkTimer 5000 (Some "subscription-error")
             (ShowFormAgain (element_ref "subscription-form" w)
                            (element_ref "dismiss-newsletter" w)) in
  contains_at email1 ->
  run1.1 = Normal r1 -> success r1 = false -> error r1 = Some e1 ->
  is_Some (document w !! "subscription-error") ->
  run2.1 = Normal r2 -> success r2 = true ->
  In t (timers run2.2) /\
  classes_of "subscription-form" run2.2
    = (fun cs => {["hidden"]} ∪ cs) <$> classes_of "subscription-form" w /\
  classes_of "subscription-form" (timeout_fires t run2.2).2
    = (fun cs => cs ∖ {["hidden"]}) <$> classes_of "subscription-form" w /\
  hasSubscribedThisSession (timeout_fires t run2.2).2
    = (Normal true, (timeout_fires t run2.2).2).
Proof.
  intros run1 run2 t Hat Hr1 Hs1 He1 [el Hel] Hr2 Hs2. subst run1 run2 t.
  destruct (failed_run_display email1 url1 options1 w r1 e1 Hat Hr1 Hs1 He1)
    as (w0 & [Hd0 Ht0] & E1).
  remember (subscribeToGhost email1 url1 options1 w).2 as w1.
  destruct (subscribeToGhost_display email2 url2 options2 w1)
    as (result & w0' & [Hd1 Ht1] & E2).
  rewrite E2 in Hr2. cbn [fst] in Hr2. injection Hr2 as ->.
  destruct (storage_marked_on_success email2 url2 options2 w1 r2) as (m & Hm);
    [by rewrite E2 | done |].
  rewrite E2 in Hm |- *. cbn [snd] in *.
  destruct (String.eqb email2 "" || negb (includes "@" email2)) eqn:Hv2.
  { exfalso.
    destruct (subscribeToGhost_path email2 url2 options2 w1) as (r' & E' & HP & _).
    rewrite E2 in E'. injection E' as <-. destruct HP; try congruence.
    discriminate Hs2. }
  rewrite Hs2 in Hm |- *.
  assert (Href : element_ref "subscription-error" w = Some "subscription-error")
    by (unfold element_ref; by rewrite Hel).
  assert (Hw0 : same_elements w w0) by (unfold same_elements; by rewrite Hd0).
  assert (Hw1 : same_elements w w1)
    by (rewrite E1; by apply same_elements_error_displayed).
  assert (Hw1' : same_elements w1 w0') by (unfold same_elements; by rewrite Hd1).
  assert (Hw0' : same_elements w w0') by (by eapply same_elements_trans).
  rewrite timeout_fires_run. cbn [snd].
  repeat apply conj.
  - unfold success_displayed, message_displayed. cbn [timers add_timer].
    rewrite !timers_on_element, Ht1, E1, Href.
    unfold error_displayed, message_displayed. cbn [timers add_timer].
    rewrite !timers_on_element, Ht0. apply in_or_app. left. apply in_or_app.
    right. by left.
  - unfold classes_of, success_displayed, message_displayed.
    page_lookup. rewrite Hd1, E1, Href. unfold error_displayed, message_displayed.
    page_lookup. rewrite Hd0. page_classes w.
    f_equal. by rewrite (assoc_L (∪)), (idemp_L (∪)).
  - unfold classes_of, timer_done, success_displayed, message_displayed.
    cbn [timer_message timer_callback].
    page_lookup. rewrite Hd1, E1, Href. unfold error_displayed, message_displayed.
    page_lookup. rewrite Hd0. page_classes w.
  - apply (hasSubscribedThisSession_marked _ m).
    unfold timer_done, success_displayed, message_displayed in *.
    cbn [timer_message timer_callback].
    assert (Hkeep : forall f el w2, sessionStorage (on_element f el w2) = sessionStorage w2)
      by (by intros f [] w2).
    rewrite !Hkeep. cbn [sessionStorage add_timer] in *. by rewrite !Hkeep in Hm |- *.
Qed.

Lemma stale_timer_shows_form_witness :
  let run1 := subscribeToGhost "user@example.com" "https://ghost.example" no_options
                retry_world in
  let run2 := subscribeToGhost "user@example.com" "https://ghost.example" no_options
                run1.2 in
  let t := mkTimer 5000 (Some "subscription-error")
             (ShowFormAgain (element_ref "subscription-form" retry_world)
                            (element_ref "dismiss-newsletter" retry_world)) in
  classes_of "subscription-form" (timeout_fires t run2.2).2
    = (fun cs => cs ∖ {["hidden"]}) <$> classes_of "subscription-form" retry_world /\
  hasSubscribedThisSession (timeout_fires t run2.2).2
    = (Normal true, (timeout_fires t run2.2).2).
Proof.
  intros run1 run2 t.
  destruct (stale_timer_shows_form
              "user@example.com" "https://ghost.example" no_options
              "user@example.com" "https://ghost.example" no_options
              retry_world (failed (VStr "Member already exists"))
              (VStr "Member already exists") (succeeded SUCCESS_MESSAGE))
    as (_ & _ & Hform & Hflag).
  - unfold contains_at. cbn. do 4 right. by left.
  - vm_compute. reflexivity.
  - reflexivity.
  - reflexivity.
  - by eexists.
  - vm_compute. reflexivity.
  - reflexivity.
  - split; assumption.
Defined.

(** ** What a run does not look at *)


